(** * typing-practice: a shallow embedding of [typing_practice.py]

    The program drills vocabulary: it reads a word list, shows a random
    word with a translation scraped from a web dictionary, and scores what
    the user types, either in a Qt window ([MyWindow]) or in a terminal
    loop ([terminal_typing_practice]).

    Python objects are modelled as records, attribute assignment as
    explicit state passing, exceptions as a result type that keeps the
    state reached when the exception was raised.  Everything outside the
    program (clock, random generator, network, file system, keyboard) is
    an oracle stored in the [World]. *)

From Stdlib Require Import List ZArith NArith Lia Bool Ascii String.
From Stdlib Require Import DecimalString DecimalPos DecimalZ.
From Stdlib Require Strings.Byte.
Import ListNotations.
Local Open Scope Z_scope.

(** ** Python strings *)

(** A Python [str] is a sequence of Unicode code points. *)
Definition char := N.
Definition str := list char.

(** String literals of the source, written as Rocq strings. *)
Definition py (s : string) : str := map N_of_ascii (list_ascii_of_string s).

Fixpoint str_eqb (a b : str) : bool :=
  match a, b with
  | [], [] => true
  | x :: a', y :: b' => N.eqb x y && str_eqb a' b'
  | _, _ => false
  end.

Definition LF : char := 10%N.
Definition CR : char := 13%N.

(** [str.isspace] on one code point (CPython's [_PyUnicode_IsWhitespace]). *)
Definition isspace (c : char) : bool :=
  ((9 <=? c) && (c <=? 13) || (28 <=? c) && (c <=? 32)
   || (c =? 133) || (c =? 160) || (c =? 5760)
   || (8192 <=? c) && (c <=? 8202)
   || (c =? 8232) || (c =? 8233) || (c =? 8239) || (c =? 8287)
   || (c =? 12288))%N.

Fixpoint lstrip (s : str) : str :=
  match s with
  | [] => []
  | c :: r => if isspace c then lstrip r else s
  end.

Definition rstrip (s : str) : str := rev (lstrip (rev s)).

(** [s.strip()] with no argument. *)
Definition strip (s : str) : str := rstrip (lstrip s).

(** [str(n)] for a Python [int]. *)
Definition str_of_int (n : Z) : str := py (NilZero.string_of_int (Z.to_int n)).

(** Text-mode reading with the default [newline=None]: every ["\r\n"] and
    every lone ["\r"] of the file is handed to the program as ["\n"]. *)
Fixpoint universal_newlines (s : str) : str :=
  match s with
  | [] => []
  | c :: r =>
      if (c =? CR)%N then
        match r with
        | d :: r' => if (d =? LF)%N then LF :: universal_newlines r'
                     else LF :: universal_newlines r
        | [] => [LF]
        end
      else c :: universal_newlines r
  end.

(** [f.readlines()]: the text cut after every ["\n"], terminators kept. *)
Fixpoint readlines (s : str) : list str :=
  match s with
  | [] => []
  | c :: r =>
      if (c =? LF)%N then [c] :: readlines r
      else match readlines r with
           | [] => [[c]]
           | l :: ls => (c :: l) :: ls
           end
  end.

(** ** Files as bytes

    A file opened with [encoding='utf8'] is read through the strict UTF-8
    decoder: a byte that cannot start a character, a missing or wrong
    continuation byte, an overlong form, a surrogate or a value above
    U+10FFFF make the read fail. *)
Definition bytes := list Byte.byte.

Definition between (lo hi b : N) : bool := ((lo <=? b) && (b <=? hi))%N.

Definition continuation (b : N) : bool := between 128 191 b.

Fixpoint utf8_decode_N (bs : list N) : option str :=
  match bs with
  | [] => Some []
  | b0 :: r0 =>
      if (b0 <? 128)%N then option_map (cons b0) (utf8_decode_N r0)
      else if between 194 223 b0 then
        match r0 with
        | b1 :: r1 =>
            if continuation b1 then
              option_map (cons ((b0 - 192) * 64 + (b1 - 128))%N)
                         (utf8_decode_N r1)
            else None
        | _ => None
        end
      else if between 224 239 b0 then
        match r0 with
        | b1 :: b2 :: r2 =>
            if between (if (b0 =? 224)%N then 160 else 128)
                       (if (b0 =? 237)%N then 159 else 191) b1
               && continuation b2 then
              option_map (cons ((b0 - 224) * 4096 + (b1 - 128) * 64
                                + (b2 - 128))%N)
                         (utf8_decode_N r2)
            else None
        | _ => None
        end
      else if between 240 244 b0 then
        match r0 with
        | b1 :: b2 :: b3 :: r3 =>
            if between (if (b0 =? 240)%N then 144 else 128)
                       (if (b0 =? 244)%N then 143 else 191) b1
               && continuation b2 && continuation b3 then
              option_map (cons ((b0 - 240) * 262144 + (b1 - 128) * 4096
                                + (b2 - 128) * 64 + (b3 - 128))%N)
                         (utf8_decode_N r3)
            else None
        | _ => None
        end
      else None
  end.

(** [raw.decode('utf8')], [None] standing for [UnicodeDecodeError]. *)
Definition utf8_decode (raw : bytes) : option str :=
  utf8_decode_N (map Byte.to_N raw).

(** [s.encode('utf8')], used to write files down. *)
Definition byte_of (n : N) : Byte.byte :=
  match Byte.of_N n with Some b => b | None => Byte.x00 end.

Definition utf8_encode_char (c : char) : bytes :=
  if (c <? 128)%N then [byte_of c]
  else if (c <? 2048)%N then
    [byte_of (192 + c / 64); byte_of (128 + c mod 64)]%N
  else if (c <? 65536)%N then
    [byte_of (224 + c / 4096); byte_of (128 + (c / 64) mod 64);
     byte_of (128 + c mod 64)]%N
  else
    [byte_of (240 + c / 262144); byte_of (128 + (c / 4096) mod 64);
     byte_of (128 + (c / 64) mod 64); byte_of (128 + c mod 64)]%N.

Definition utf8_encode (s : str) : bytes := flat_map utf8_encode_char s.

(** ** The parsed page

    [BeautifulSoup(response.text, 'html.parser')] is taken as given: the
    network oracle hands over the parse tree of the page. *)
#[warnings="-register-all"]
Inductive Node : Type :=
| NText (s : str)
| NTag (name : str) (classes : list str) (children : list Node).

(** [soup.find(class_=cls)] on one node: the first tag, in document order,
    one of whose classes is [cls]. *)
Fixpoint find_node (cls : str) (n : Node) : option Node :=
  match n with
  | NText _ => None
  | NTag _ cs kids =>
      if existsb (str_eqb cls) cs then Some n
      else (fix first (l : list Node) : option Node :=
              match l with
              | [] => None
              | k :: l' => match find_node cls k with
                           | Some t => Some t
                           | None => first l'
                           end
              end) kids
  end.

Fixpoint find (cls : str) (doc : list Node) : option Node :=
  match doc with
  | [] => None
  | n :: doc' => match find_node cls n with
                 | Some t => Some t
                 | None => find cls doc'
                 end
  end.

(** [tag.text]: all the strings below the tag, concatenated. *)
Fixpoint text (n : Node) : str :=
  match n with
  | NText s => s
  | NTag _ _ kids =>
      (fix all (l : list Node) : str :=
         match l with
         | [] => []
         | k :: l' => text k ++ all l'
         end) kids
  end.

(** Truth value of what [find] returns: [None] is false, and a [Tag] is
    true whatever it contains ([Tag.__bool__]). *)
Definition truthy (t : option Node) : bool :=
  match t with Some _ => true | None => false end.

(** ** Exceptions and the state monad *)

Inductive exn : Type :=
| ValueError | IndexError | IOError | RequestException | AttributeError
| ZeroDivisionError | EOFError | SystemExit | UnicodeDecodeError.

Inductive result (A : Type) : Type :=
| Ok (a : A)
| Raise (e : exn).
Arguments Ok {A} a.
Arguments Raise {A} e.

(** A computation over a state [S]; when it raises, the state is the one
    reached at the [raise]: assignments made before it stay made. *)
Definition M (S A : Type) : Type := S -> result A * S.

Definition ret {S A} (a : A) : M S A := fun s => (Ok a, s).
Definition raise {S A} (e : exn) : M S A := fun s => (Raise e, s).
Definition bind {S A B} (m : M S A) (k : A -> M S B) : M S B :=
  fun s => match m s with
           | (Ok a, s') => k a s'
           | (Raise e, s') => (Raise e, s')
           end.
Definition gets {S A} (f : S -> A) : M S A := fun s => (Ok (f s), s).
Definition modify {S} (f : S -> S) : M S unit := fun s => (Ok tt, f s).

Declare Scope py_scope.
Delimit Scope py_scope with py.
Notation "x <- m ;; k" := (bind m (fun x => k))
  (at level 61, m at next level, right associativity) : py_scope.
Notation "m ;; k" := (bind m (fun _ => k))
  (at level 61, right associativity) : py_scope.
Local Open Scope py_scope.

(** ** The world outside the program *)

(** What is printed or shown.  The speed in ['correct! ... char/s'] is a
    float formatted with [:.2f]; it is kept as the operands it is computed
    from. *)
Inductive Text : Type :=
| Lit (s : str)
| Speed (chars : nat) (t_now t_start : Z).

Record Line : Type := { line_text : Text; line_color : option str }.

(** The clock gives the successive readings of [time.time()].  They are
    floats in Python and integers here: the program only subtracts two
    readings and divides by the difference, and what decides its course is
    whether that difference is zero, that is whether the two readings are
    equal.  A file is given by the bytes it holds. *)
Record World : Type := {
  clock : nat -> Z;          (* successive readings of time.time() *)
  rng : nat -> nat;          (* successive draws of the random generator *)
  web : nat -> str -> option (list Node);
                             (* n-th request: the parsed page, or a failure *)
  files : str -> option bytes;
                             (* bytes of a file, None if it cannot be opened *)
  ticks : nat;
  draws : nat;
  requests : nat;
  stdin : list str;
  stdout : list Line
}.

Definition tick (w : World) : World :=
  {| clock := clock w; rng := rng w; web := web w; files := files w;
     ticks := S (ticks w); draws := draws w; requests := requests w;
     stdin := stdin w; stdout := stdout w |}.

Definition drawn (w : World) : World :=
  {| clock := clock w; rng := rng w; web := web w; files := files w;
     ticks := ticks w; draws := S (draws w); requests := requests w;
     stdin := stdin w; stdout := stdout w |}.

Definition requested (w : World) : World :=
  {| clock := clock w; rng := rng w; web := web w; files := files w;
     ticks := ticks w; draws := draws w; requests := S (requests w);
     stdin := stdin w; stdout := stdout w |}.

Definition with_stdin (l : list str) (w : World) : World :=
  {| clock := clock w; rng := rng w; web := web w; files := files w;
     ticks := ticks w; draws := draws w; requests := requests w;
     stdin := l; stdout := stdout w |}.

Definition with_stdout (l : list Line) (w : World) : World :=
  {| clock := clock w; rng := rng w; web := web w; files := files w;
     ticks := ticks w; draws := draws w; requests := requests w;
     stdin := stdin w; stdout := l |}.

(** [time.time()] *)
Definition time_time : M World Z :=
  fun w => (Ok (clock w (ticks w)), tick w).

(** [random.sample(population, 1)]: a [ValueError] when the sample is
    larger than the population, else a list of one element. *)
Definition random_sample_1 (population : list str) : M World (list str) :=
  fun w =>
    match population with
    | [] => (Raise ValueError, w)
    | _ :: _ =>
        (Ok [nth (Nat.modulo (rng w (draws w)) (List.length population)) population []],
         drawn w)
    end.

(** [l[0]] *)
Definition item0 {S} (l : list str) : M S str :=
  match l with
  | [] => raise IndexError
  | x :: _ => ret x
  end.

(** [requests.get(url, headers=...)] followed by the parse of its text. *)
Definition requests_get (url : str) : M World (list Node) :=
  fun w =>
    match web w (requests w) url with
    | Some doc => (Ok doc, requested w)
    | None => (Raise RequestException, requested w)
    end.

(** [input()] *)
Definition input : M World str :=
  fun w =>
    match stdin w with
    | [] => (Raise EOFError, w)
    | l :: rest => (Ok l, with_stdin rest w)
    end.

(** [print(colored(t, color))], and a plain [print(t)] with [None]. *)
Definition print (t : Text) (color : option str) : M World unit :=
  modify (fun w => with_stdout (stdout w ++ [{| line_text := t; line_color := color |}]) w).

(** [chars / (t_now - t_start)] inside the f-string: a float division,
    which raises on a zero divisor. *)
Definition speed {S} (chars : nat) (t_now t_start : Z) : M S Text :=
  if t_now - t_start =? 0 then raise ZeroDivisionError
  else ret (Speed chars t_now t_start).

(** ['Practiced {succ_cnt} word{"s" if succ_cnt > 1 else ""}!'] *)
Definition farewell (succ_cnt : Z) : str :=
  py "Practiced " ++ str_of_int succ_cnt ++ py " word"
  ++ (if succ_cnt >? 1 then py "s" else py "") ++ py "!".

(** An f-string prints [None] as ["None"]. *)
Definition fmt (o : option str) : str :=
  match o with Some s => s | None => py "None" end.

(** ** [read_file] *)

Definition read_file (file : str) : M World (list str) :=
  fun w =>
    match files w file with
    | None => (Raise IOError, w)
    | Some raw =>
        match utf8_decode raw with
        | None => (Raise UnicodeDecodeError, w)
        | Some content => (Ok (readlines (universal_newlines content)), w)
        end
    end.

(** ** [crawl_translation] *)

Definition sentinel : str := py "No translation found.".

Definition translation_url (word : str) : str :=
  py "https://dictionary.cambridge.org/zht/%E8%A9%9E%E5%85%B8/%E8%8B%B1%E8%AA%9E-%E6%BC%A2%E8%AA%9E-%E7%B9%81%E9%AB%94/" ++ word.

Definition url_cand (word : str) : list str := [translation_url word].

(** The [for url in url_cand] loop.  Its body returns on both branches,
    so only the first candidate is ever requested; falling off the end of
    an empty list would return [None].  [target_class.text] is reached
    only for a tag: on [None] it would be an [AttributeError]. *)
Definition crawl_loop (urls : list str) : M World (option str) :=
  match urls with
  | [] => ret None
  | url :: _ =>
      soup <- requests_get url ;;
      let target_class := find (py "dtrans") soup in
      if truthy target_class then
        match target_class with
        | Some t => ret (Some (text t))
        | None => raise AttributeError
        end
      else ret (Some sentinel)
  end.

Definition crawl_translation (word : str) : M World (option str) :=
  crawl_loop (url_cand word).

(** ** Objects and frames over the world

    A method or a function body runs over its own variables ([X]: the
    attributes of [self], or the local names of a frame) and the world. *)
Definition io {X A} (m : M World A) : M (X * World) A :=
  fun s => let (r, w') := m (snd s) in (r, (fst s, w')).
Definition read {X A} (f : X -> A) : M (X * World) A :=
  fun s => (Ok (f (fst s)), s).
Definition assign {X} (f : X -> X) : M (X * World) unit :=
  fun s => (Ok tt, (f (fst s), snd s)).

Definition finish_practice : str := py "finish practice".

(** ** The window front end *)
Module Gui.

Record MyWindow : Type := {
  inputbox : str;        (* text of the QLineEdit *)
  question : str;        (* text of the question label *)
  result_text : Text;    (* text of the result label *)
  result_style : str;    (* its style sheet *)
  words : list str;
  succ_cnt : Z;
  cur_word : str;
  start_time : Z;
  closed : bool          (* self.close() has been called *)
}.

Definition State : Type := (MyWindow * World)%type.

Definition set_inputbox (v : str) (o : MyWindow) : MyWindow :=
  {| inputbox := v; question := question o; result_text := result_text o;
     result_style := result_style o; words := words o; succ_cnt := succ_cnt o;
     cur_word := cur_word o; start_time := start_time o; closed := closed o |}.
Definition set_question (v : str) (o : MyWindow) : MyWindow :=
  {| inputbox := inputbox o; question := v; result_text := result_text o;
     result_style := result_style o; words := words o; succ_cnt := succ_cnt o;
     cur_word := cur_word o; start_time := start_time o; closed := closed o |}.
Definition set_result_text (v : Text) (o : MyWindow) : MyWindow :=
  {| inputbox := inputbox o; question := question o; result_text := v;
     result_style := result_style o; words := words o; succ_cnt := succ_cnt o;
     cur_word := cur_word o; start_time := start_time o; closed := closed o |}.
Definition set_result_style (v : str) (o : MyWindow) : MyWindow :=
  {| inputbox := inputbox o; question := question o; result_text := result_text o;
     result_style := v; words := words o; succ_cnt := succ_cnt o;
     cur_word := cur_word o; start_time := start_time o; closed := closed o |}.
Definition set_succ_cnt (v : Z) (o : MyWindow) : MyWindow :=
  {| inputbox := inputbox o; question := question o; result_text := result_text o;
     result_style := result_style o; words := words o; succ_cnt := v;
     cur_word := cur_word o; start_time := start_time o; closed := closed o |}.
Definition set_cur_word (v : str) (o : MyWindow) : MyWindow :=
  {| inputbox := inputbox o; question := question o; result_text := result_text o;
     result_style := result_style o; words := words o; succ_cnt := succ_cnt o;
     cur_word := v; start_time := start_time o; closed := closed o |}.
Definition set_start_time (v : Z) (o : MyWindow) : MyWindow :=
  {| inputbox := inputbox o; question := question o; result_text := result_text o;
     result_style := result_style o; words := words o; succ_cnt := succ_cnt o;
     cur_word := cur_word o; start_time := v; closed := closed o |}.
Definition close (o : MyWindow) : MyWindow :=
  {| inputbox := inputbox o; question := question o; result_text := result_text o;
     result_style := result_style o; words := words o; succ_cnt := succ_cnt o;
     cur_word := cur_word o; start_time := start_time o; closed := true |}.

Definition fetch_word : M State str :=
  ws <- read words ;;
  sample <- io (random_sample_1 ws) ;;
  picked <- item0 sample ;;
  let rand_word := strip picked in
  translation <- io (crawl_translation rand_word) ;;
  assign (set_question (rand_word ++ py "  -  " ++ fmt translation)) ;;
  now <- io time_time ;;
  assign (set_start_time now) ;;
  ret rand_word.

Definition enter_text : M State unit :=
  typed <- read inputbox ;;
  let answer := strip typed in
  assign (set_inputbox (py "")) ;;
  cw <- read cur_word ;;
  if str_eqb answer cw then
    n <- read succ_cnt ;;
    assign (set_succ_cnt (n + 1)) ;;
    assign (set_result_style (py "color: green")) ;;
    cw <- read cur_word ;;
    now <- io time_time ;;
    t0 <- read start_time ;;
    sp <- speed (List.length cw) now t0 ;;
    assign (set_result_text sp) ;;
    next <- fetch_word ;;
    assign (set_cur_word next)
  else if str_eqb answer finish_practice then
    assign (set_result_style (py "color: yellow")) ;;
    n <- read succ_cnt ;;
    io (print (Lit (farewell n)) None) ;;
    assign close
  else
    assign (set_result_style (py "color: red")) ;;
    assign (set_result_text (Lit (py "wrong!"))) ;;
    now <- io time_time ;;
    assign (set_start_time now).

(** The object as [__init__] has it just before [self.fetch_word()]:
    the widgets are blank, [words] and [succ_cnt] are set; [cur_word]
    and [start_time] do not exist yet and are never read before they
    are assigned, so any value stands for them here. *)
Definition blank (ws : list str) : MyWindow :=
  {| inputbox := py ""; question := py ""; result_text := Lit (py "");
     result_style := py ""; words := ws; succ_cnt := 0;
     cur_word := py ""; start_time := 0; closed := false |}.

(** [MyWindow(words)] *)
Definition init (ws : list str) : M World MyWindow :=
  fun w =>
    match (first <- fetch_word ;; assign (set_cur_word first)) (blank ws, w) with
    | (Ok _, (self, w')) => (Ok self, w')
    | (Raise e, (_, w')) => (Raise e, w')
    end.

(** The user types [typed] into the input box and presses Return. *)
Definition press_return (typed : str) : M State unit :=
  assign (set_inputbox typed) ;; enter_text.

(** The event loop on a sequence of typed lines: it stops when the
    window is closed, and an exception raised in the slot ends it. *)
Fixpoint session (typed : list str) : M State unit :=
  match typed with
  | [] => ret tt
  | t :: rest =>
      gone <- read closed ;;
      if gone then ret tt
      else press_return t ;; session rest
  end.

End Gui.

(** ** The terminal front end *)
Module Terminal.

(** The frame of [terminal_typing_practice]. *)
Record Locals : Type := {
  words : list str;
  rand_word : str;
  succ_cnt : Z;
  start_time : option Z  (* None until the first assignment *)
}.

Definition State : Type := (Locals * World)%type.

Definition set_rand_word (v : str) (l : Locals) : Locals :=
  {| words := words l; rand_word := v; succ_cnt := succ_cnt l;
     start_time := start_time l |}.
Definition set_succ_cnt (v : Z) (l : Locals) : Locals :=
  {| words := words l; rand_word := rand_word l; succ_cnt := v;
     start_time := start_time l |}.
Definition set_start_time (v : Z) (l : Locals) : Locals :=
  {| words := words l; rand_word := rand_word l; succ_cnt := succ_cnt l;
     start_time := Some v |}.

Definition draw : M State unit :=
  ws <- read words ;;
  sample <- io (random_sample_1 ws) ;;
  picked <- item0 sample ;;
  assign (set_rand_word (strip picked)).

(** One pass through the body of [while True]. *)
Definition iteration : M State unit :=
  w <- read rand_word ;;
  translation <- io (crawl_translation w) ;;
  io (print (Lit (w ++ py "  -  " ++ fmt translation)) (Some (py "blue"))) ;;
  t0 <- io time_time ;;
  assign (set_start_time t0) ;;
  input_word <- io input ;;
  if str_eqb input_word finish_practice then
    n <- read succ_cnt ;;
    io (print (Lit (farewell n)) (Some (py "yellow"))) ;;
    raise SystemExit
  else
    w <- read rand_word ;;
    if str_eqb input_word w then
      now <- io time_time ;;
      sp <- speed (List.length w) now t0 ;;
      io (print sp (Some (py "green"))) ;;
      n <- read succ_cnt ;;
      assign (set_succ_cnt (n + 1)) ;;
      draw
    else
      io (print (Lit (py "wrong!")) (Some (py "red"))).

(** [while True], unrolled [fuel] times. *)
Fixpoint loop (fuel : nat) : M State unit :=
  match fuel with
  | O => ret tt
  | S fuel' => iteration ;; loop fuel'
  end.

(** The frame on entry: only the parameter is bound; [rand_word] and
    [succ_cnt] are assigned by the first two statements. *)
Definition entry (ws : list str) : Locals :=
  {| words := ws; rand_word := py ""; succ_cnt := 0; start_time := None |}.

(** The body of the function: the first draw, the counter, the loop. *)
Definition body (fuel : nat) : M State unit :=
  draw ;; assign (set_succ_cnt 0) ;; loop fuel.

Definition terminal_typing_practice (fuel : nat) (ws : list str) : M World unit :=
  fun w => let (r, s) := body fuel (entry ws, w) in (r, snd s).

End Terminal.

(** ** The program

    [input(prompt)] writes the prompt and reads a line. *)
Definition input_prompt (prompt : str) : M World str :=
  print (Lit prompt) None ;; input.

(** [sys.exit(app.exec_())] on the lines [typed] into the window: the
    event loop returns once the window is closed, and the program exits;
    while the window is open and no more is typed it is still running,
    which is the normal end here. *)
Definition run_app (window : Gui.MyWindow) (typed : list str) : M World unit :=
  fun w =>
    match Gui.session typed (window, w) with
    | (Ok _, (o, w')) =>
        if Gui.closed o then (Raise SystemExit, w') else (Ok tt, w')
    | (Raise e, (_, w')) => (Raise e, w')
    end.

(** The [__main__] block. *)
Definition main (fuel : nat) (typed : list str) : M World unit :=
  words <- read_file (py "Oxford 5000.txt") ;;
  answer <- input_prompt (py "Open GUI mode? (y/n): ") ;;
  if str_eqb answer (py "y") then
    window <- Gui.init words ;;
    run_app window typed
  else
    Terminal.terminal_typing_practice fuel words.

(** ** Notions used in the statements *)

(** A string that [strip] leaves alone. *)
Definition trimmed (s : str) : Prop := strip s = s.

(** [Lines t ls]: [ls] is the text [t] cut into its lines, each with its
    terminator; only the last line may lack one. *)
Inductive Lines : str -> list str -> Prop :=
| Lines_nil : Lines [] []
| Lines_last (body : str) :
    body <> [] -> ~ In LF body -> Lines body [body]
| Lines_cons (body t : str) (ls : list str) :
    ~ In LF body -> Lines t ls ->
    Lines (body ++ LF :: t) ((body ++ [LF]) :: ls).

(** What [crawl_translation] makes of a page. *)
Definition translation_of (doc : list Node) : str :=
  match find (py "dtrans") doc with
  | Some t => text t
  | None => sentinel
  end.

(** The word that a draw picks in world [w]. *)
Definition pick (ws : list str) (w : World) : str :=
  strip (nth (Nat.modulo (rng w (draws w)) (List.length ws)) ws []).

(** The line that shows the word [word] with the translation on [doc]. *)
Definition shown (word : str) (doc : list Node) : Line :=
  {| line_text := Lit (word ++ py "  -  " ++ translation_of doc);
     line_color := Some (py "blue") |}.

(** The world of an iteration once [input()] has returned: one request
    made, the word shown, the clock read once, one line of input taken. *)
Definition prompted (word : str) (doc : list Node) (rest : list str)
    (w : World) : World :=
  with_stdin rest (tick (with_stdout (stdout w ++ [shown word doc]) (requested w))).

Definition say (t : Text) (color : string) (w : World) : World :=
  with_stdout (stdout w ++ [{| line_text := t; line_color := Some (py color) |}]) w.

(** All the tags at or below a node, in document order. *)
Fixpoint elements (n : Node) : list Node :=
  match n with
  | NText _ => []
  | NTag _ _ kids =>
      n :: (fix below (l : list Node) : list Node :=
              match l with
              | [] => []
              | k :: l' => elements k ++ below l'
              end) kids
  end.

Definition has_class (cls : str) (n : Node) : bool :=
  match n with
  | NText _ => false
  | NTag _ cs _ => existsb (str_eqb cls) cs
  end.

(** Reading the count back from a farewell line: the decimal number that
    follows ["Practiced "] and runs up to the next blank. *)
Definition ascii_of_str (s : str) : string :=
  string_of_list_ascii (map ascii_of_N s).

Definition int_of_str (s : str) : option Z :=
  option_map Z.of_int (NilZero.int_of_string (ascii_of_str s)).

Fixpoint until_blank (s : str) : str :=
  match s with
  | [] => []
  | c :: r => if (c =? 32)%N then [] else c :: until_blank r
  end.

Definition no_blank (s : str) : Prop := Forall (fun c => c <> 32%N) s.

Definition reported_count (msg : str) : option Z :=
  int_of_str (until_blank (skipn 10 msg)).

(** ** Concrete sessions *)

(** A dictionary page carrying [translation] in a ["dtrans"] element. *)
Definition page (translation : str) : list Node :=
  [NTag (py "div") [py "def-body"]
     [NText (py " ");
      NTag (py "span") [py "trans"; py "dtrans"] [NText translation]]].

(** A world whose clock advances by 5 at every reading from 100 on, whose
    network always answers, and whose keyboard holds the lines [typed]. *)
Definition example_world (typed : list str) : World :=
  {| clock := fun n => Z.of_nat n * 5 + 100;
     rng := fun n => n;
     web := fun _ _ => Some (page (py "translation"));
     files := fun _ => None;
     ticks := 0; draws := 0; requests := 0;
     stdin := typed; stdout := [] |}.

(** A window showing [word], drawn from a one-line word list, after
    three correct answers. *)
Definition example_window (word : str) : Gui.MyWindow :=
  {| Gui.inputbox := py ""; Gui.question := word ++ py "  -  translation";
     Gui.result_text := Lit (py ""); Gui.result_style := py "";
     Gui.words := [word ++ [LF]]; Gui.succ_cnt := 3;
     Gui.cur_word := word; Gui.start_time := 50; Gui.closed := false |}.

(** The terminal loop in the same situation. *)
Definition example_locals (word : str) : Terminal.Locals :=
  {| Terminal.words := [word ++ [LF]]; Terminal.rand_word := word;
     Terminal.succ_cnt := 3; Terminal.start_time := None |}.


(** A line that a front end holding [word] scores as wrong, once the
    line is in the form the front end compares. *)
Definition wrong_for (word answer : str) : Prop :=
  answer <> word /\ answer <> finish_practice.


(** The WordList of the specification: the loaded lines, trimmed. *)
Definition word_list (ws : list str) : list str := map strip ws.

(** The question label presents the current word. *)
Definition presents (o : Gui.MyWindow) : Prop :=
  exists translation,
    Gui.question o = Gui.cur_word o ++ py "  -  " ++ translation.

(** The invariant of the window, and of the frame of the terminal loop. *)
Definition window_ok (ws : list str) (o : Gui.MyWindow) : Prop :=
  Gui.words o = ws /\ In (Gui.cur_word o) (word_list ws) /\ presents o.

Definition frame_ok (ws : list str) (l : Terminal.Locals) : Prop :=
  Terminal.words l = ws /\ In (Terminal.rand_word l) (word_list ws).


(** A world whose only readable file is the word list, holding
    [content] encoded in UTF-8. *)
Definition example_disk (content : str) : World :=
  {| clock := fun n => Z.of_nat n * 5 + 100;
     rng := fun n => n;
     web := fun _ _ => Some (page (py "translation"));
     files := fun name =>
                if str_eqb name (py "Oxford 5000.txt")
                then Some (utf8_encode content)
                else None;
     ticks := 0; draws := 0; requests := 0;
     stdin := []; stdout := [] |}.


(** The same world with the network down. *)
Definition offline_world (typed : list str) : World :=
  {| clock := fun n => Z.of_nat n * 5 + 100;
     rng := fun n => n;
     web := fun _ _ => None;
     files := fun _ => None;
     ticks := 0; draws := 0; requests := 0;
     stdin := typed; stdout := [] |}.

(** The window that [MyWindow(ws)] builds in world [w]. *)
Definition opened (ws : list str) (w : World) : Gui.MyWindow :=
  match fst (Gui.init ws w) with
  | Ok o => o
  | Raise _ => Gui.blank ws
  end.


(** ** Notions used in the further properties *)

(** A text whose last line has no terminator. *)
Fixpoint unterminated (s : str) : bool :=
  match s with
  | [] => false
  | c :: r =>
      match r with
      | [] => negb (c =? LF)%N
      | _ :: _ => unterminated r
      end
  end.

(** A string with no whitespace at either end. *)
Definition clean_ends (s : str) : Prop :=
  match s with
  | [] => True
  | c :: _ => isspace c = false /\ isspace (last s c) = false
  end.

(** The world once the program has read the word list and the answer to
    its question. *)
Definition asked (rest : list str) (w : World) : World :=
  with_stdin rest
    (with_stdout
       (stdout w ++ [{| line_text := Lit (py "Open GUI mode? (y/n): ");
                        line_color := None |}]) w).

(** A world in which nothing fails by itself: every request is answered
    and no two successive readings of the clock are equal. *)
Definition reliable (w : World) : Prop :=
  (forall n url, web w n url <> None) /\
  (forall n, clock w (S n) <> clock w n).


(** The start time of the window is the latest reading of the clock. *)
Definition timed (o : Gui.MyWindow) (w : World) : Prop :=
  (0 < ticks w)%nat /\ Gui.start_time o = clock w (Nat.pred (ticks w)).

(** Some line typed into the window is the exit command, up to the
    whitespace around it. *)
Definition exit_typed (typed : list str) : Prop :=
  Exists (fun t => strip t = finish_practice) typed.


(** ** Notions used for files *)

(** The text of a file that opens and decodes. *)
Definition file_text (w : World) (file : str) : option str :=
  match files w file with
  | Some raw => utf8_decode raw
  | None => None
  end.

(** A Unicode scalar value: what a UTF-8 file can hold. *)
Definition scalar (c : char) : Prop :=
  (c < 55296 \/ 57344 <= c < 1114112)%N.

(** A piece of text with no line terminator in it. *)
Definition plain (body : str) : Prop := ~ In LF body /\ ~ In CR body.

(** [RawLines t ls]: [ls] is the text [t] of a file cut into its lines,
    where a line ends at ["\n"], at ["\r\n"] or at a ["\r"] that no
    ["\n"] follows.  Each entry is the line as it stands, whitespace
    included, with ["\n"] in place of its terminator; only the last line
    may lack one. *)
Inductive RawLines : str -> list str -> Prop :=
| RawLines_nil : RawLines [] []
| RawLines_last (body : str) :
    body <> [] -> plain body -> RawLines body [body]
| RawLines_lf (body t : str) (ls : list str) :
    plain body -> RawLines t ls ->
    RawLines (body ++ LF :: t) ((body ++ [LF]) :: ls)
| RawLines_crlf (body t : str) (ls : list str) :
    plain body -> RawLines t ls ->
    RawLines (body ++ CR :: LF :: t) ((body ++ [LF]) :: ls)
| RawLines_cr (body t : str) (ls : list str) :
    plain body -> hd_error t <> Some LF -> RawLines t ls ->
    RawLines (body ++ CR :: t) ((body ++ [LF]) :: ls).

(** A string made of whitespace only. *)
Definition blank (s : str) : Prop := forallb isspace s = true.


(** A world whose word list opens but holds a byte that starts no
    UTF-8 character. *)
Definition garbled_disk : World :=
  {| clock := fun n => Z.of_nat n * 5 + 100;
     rng := fun n => n;
     web := fun _ _ => Some (page (py "translation"));
     files := fun name =>
                if str_eqb name (py "Oxford 5000.txt")
                then Some (utf8_encode (py "hello") ++ [Byte.xff])
                else None;
     ticks := 0; draws := 0; requests := 0;
     stdin := [py "n"]; stdout := [] |}.

(** * Properties *)

(** ** Strings *)

Lemma str_eqb_spec (a b : str) : reflect (a = b) (str_eqb a b).
Proof.
  revert b; induction a as [|x a IH]; intros [|y b]; simpl;
    try (constructor; congruence).
  destruct (N.eqb_spec x y) as [->|Hxy]; simpl.
  - destruct (IH b) as [->|Hab]; constructor; congruence.
  - constructor; congruence.
Qed.

Lemma str_eqb_refl (a : str) : str_eqb a a = true.
Proof. destruct (str_eqb_spec a a); congruence. Qed.

Lemma str_eqb_neq (a b : str) : a <> b -> str_eqb a b = false.
Proof. destruct (str_eqb_spec a b); congruence. Qed.

#[global] Arguments str_eqb : simpl never.
#[global] Arguments py : simpl never.

Lemma lstrip_suffix (s : str) : exists pre, s = pre ++ lstrip s.
Proof.
  induction s as [|c r [pre IH]]; simpl.
  - exists []; reflexivity.
  - destruct (isspace c).
    + exists (c :: pre); simpl; congruence.
    + exists []; reflexivity.
Qed.

Lemma lstrip_head (s : str) :
  lstrip s = [] \/ exists c r, lstrip s = c :: r /\ isspace c = false.
Proof.
  induction s as [|c r IH]; simpl; auto.
  destruct (isspace c) eqn:E; auto.
  right; eauto.
Qed.

Lemma lstrip_fixed (s : str) :
  (s = [] \/ exists c r, s = c :: r /\ isspace c = false) -> lstrip s = s.
Proof.
  intros [->|(c & r & -> & E)]; simpl; auto.
  now rewrite E.
Qed.

Lemma lstrip_idem (s : str) : lstrip (lstrip s) = lstrip s.
Proof. apply lstrip_fixed, lstrip_head. Qed.

Lemma rstrip_prefix (s : str) : exists post, s = rstrip s ++ post.
Proof.
  unfold rstrip. destruct (lstrip_suffix (rev s)) as [pre E].
  exists (rev pre).
  rewrite <- rev_app_distr, <- E. symmetry; apply rev_involutive.
Qed.

Lemma rstrip_idem (s : str) : rstrip (rstrip s) = rstrip s.
Proof. unfold rstrip. now rewrite rev_involutive, lstrip_idem. Qed.

Lemma lstrip_rstrip_lstrip (s : str) :
  lstrip (rstrip (lstrip s)) = rstrip (lstrip s).
Proof.
  apply lstrip_fixed.
  destruct (rstrip_prefix (lstrip s)) as [post E].
  destruct (rstrip (lstrip s)) as [|d r] eqn:R; auto.
  right. exists d, r. split; auto.
  destruct (lstrip_head s) as [H|(c & r' & H & Hc)]; rewrite H in E.
  - discriminate.
  - simpl in E. now injection E as -> _.
Qed.

Lemma strip_idem (s : str) : strip (strip s) = strip s.
Proof.
  unfold strip. now rewrite lstrip_rstrip_lstrip, rstrip_idem.
Qed.

Lemma strip_trimmed (s : str) : trimmed (strip s).
Proof. apply strip_idem. Qed.

Lemma in_strip_trimmed (ws : list str) (s : str) :
  In s (map strip ws) -> trimmed s.
Proof.
  intros H. apply in_map_iff in H as (x & <- & _). apply strip_trimmed.
Qed.

(** A leading blank is stripped away. *)
Lemma strip_blank_cons (s : str) : strip (32%N :: s) = strip s.
Proof. reflexivity. Qed.

Lemma lstrip_app (a b : str) :
  lstrip (a ++ b) = match lstrip a with [] => lstrip b | _ :: _ => lstrip a ++ b end.
Proof.
  induction a as [|c a IH]; simpl.
  - destruct (lstrip b); reflexivity.
  - destruct (isspace c); [exact IH | reflexivity].
Qed.

Lemma lstrip_blank (s : str) : forallb isspace s = true -> lstrip s = [].
Proof.
  induction s as [|c r IH]; simpl; [reflexivity|].
  destruct (isspace c); [exact IH | discriminate].
Qed.

(** ** Lines of a text *)

Lemma readlines_nil_inv (s : str) : readlines s = [] -> s = [].
Proof.
  destruct s as [|c r]; simpl; auto.
  destruct (c =? LF)%N; [discriminate|].
  destruct (readlines r); discriminate.
Qed.

Lemma readlines_Lines (s : str) : Lines s (readlines s).
Proof.
  induction s as [|c r IH]; simpl.
  - constructor.
  - destruct (N.eqb_spec c LF) as [->|Hc].
    + apply (Lines_cons [] r); auto.
    + destruct (readlines r) as [|l ls] eqn:E.
      * apply readlines_nil_inv in E as ->.
        apply Lines_last; [discriminate|].
        intros [H|[]]; congruence.
      * inversion IH as [|body Hne Hno|body t ls' Hno Ht]; subst.
        -- apply (Lines_last (c :: l)); [discriminate|].
           intros [H|H]; [congruence | auto].
        -- apply (Lines_cons (c :: body) t ls); auto.
           intros [H|H]; [congruence | auto].
Qed.

Lemma readlines_last (body : str) :
  body <> [] -> ~ In LF body -> readlines body = [body].
Proof.
  induction body as [|c r IH]; intros Hne Hno; [congruence|].
  simpl. destruct (N.eqb_spec c LF) as [->|Hc].
  - exfalso; apply Hno; now left.
  - destruct r as [|d r'].
    + reflexivity.
    + rewrite IH; [reflexivity | discriminate |].
      intros H; apply Hno; now right.
Qed.

Lemma readlines_cons (body t : str) :
  ~ In LF body -> readlines (body ++ LF :: t) = (body ++ [LF]) :: readlines t.
Proof.
  induction body as [|c r IH]; intros Hno; simpl.
  - reflexivity.
  - destruct (N.eqb_spec c LF) as [->|Hc].
    + exfalso; apply Hno; now left.
    + rewrite IH; [reflexivity|].
      intros H; apply Hno; now right.
Qed.

Lemma Lines_unique (t : str) (ls : list str) : Lines t ls -> ls = readlines t.
Proof.
  induction 1 as [|body Hne Hno|body t ls Hno _ IH].
  - reflexivity.
  - symmetry; now apply readlines_last.
  - rewrite readlines_cons by assumption. now rewrite IH.
Qed.

Lemma Lines_concat (t : str) (ls : list str) : Lines t ls -> List.concat ls = t.
Proof.
  induction 1 as [|body Hne Hno|body t ls Hno _ IH]; simpl.
  - reflexivity.
  - apply app_nil_r.
  - now rewrite IH, <- app_assoc.
Qed.

Lemma universal_newlines_id (s : str) :
  ~ In CR s -> universal_newlines s = s.
Proof.
  induction s as [|c r IH]; intros Hno; [reflexivity|].
  simpl. destruct (N.eqb_spec c CR) as [->|Hc].
  - exfalso; apply Hno; now left.
  - rewrite IH; [reflexivity|]. intros H; apply Hno; now right.
Qed.

Lemma universal_newlines_no_CR (s : str) : ~ In CR (universal_newlines s).
Proof.
  assert (G : forall n s, (List.length s <= n)%nat ->
                          ~ In CR (universal_newlines s)).
  { clear s. induction n as [|n IH]; intros [|c r] Hlen; simpl in *;
      try tauto; try lia.
    destruct (N.eqb_spec c CR) as [->|Hc].
    - destruct r as [|d r']; [intros [H|[]]; discriminate|].
      destruct (d =? LF)%N.
      + intros [H|H]; [discriminate|].
        apply (IH r'); [simpl in Hlen; lia | exact H].
      + intros [H|H]; [discriminate|].
        apply (IH (d :: r')); [simpl in *; lia | exact H].
    - intros [H|H]; [congruence|].
      apply (IH r); [lia | exact H]. }
  apply (G (List.length s)); lia.
Qed.

(** ** Running the translation fetcher *)

Lemma crawl_translation_run (word : str) (w : World) :
  crawl_translation word w =
  (match web w (requests w) (translation_url word) with
   | Some doc => Ok (Some (translation_of doc))
   | None => Raise RequestException
   end, requested w).
Proof.
  unfold crawl_translation, url_cand, crawl_loop, bind, requests_get, translation_of.
  destruct (web w (requests w) (translation_url word)) as [doc|]; [|reflexivity].
  destruct (find (py "dtrans") doc); reflexivity.
Qed.

(** ** Running the window *)

Lemma pick_in (ws : list str) (w : World) :
  ws <> [] -> In (pick ws w) (map strip ws).
Proof.
  intros Hne. unfold pick. apply in_map, nth_In.
  apply Nat.mod_upper_bound. destruct ws; simpl; congruence.
Qed.

Lemma fetch_word_run (o : Gui.MyWindow) (w : World) :
  Gui.fetch_word (o, w) =
  match Gui.words o with
  | [] => (Raise ValueError, (o, w))
  | _ :: _ =>
      let picked := pick (Gui.words o) w in
      match web w (requests w) (translation_url picked) with
      | None => (Raise RequestException, (o, requested (drawn w)))
      | Some doc =>
          (Ok picked,
           (Gui.set_start_time (clock w (ticks w))
              (Gui.set_question (picked ++ py "  -  " ++ translation_of doc) o),
            tick (requested (drawn w))))
      end
  end.
Proof.
  unfold Gui.fetch_word, bind, read, io, random_sample_1, pick. simpl.
  destruct (Gui.words o) as [|x ws] eqn:E; [reflexivity|].
  simpl. rewrite crawl_translation_run. simpl.
  destruct (web w (requests w) _); reflexivity.
Qed.

(** The three branches of [enter_text], on the line [typed]. *)

Lemma press_return_correct (typed : str) (o : Gui.MyWindow) (w : World) :
  strip typed = Gui.cur_word o ->
  Gui.press_return typed (o, w) =
  let o1 := Gui.set_result_style (py "color: green")
              (Gui.set_succ_cnt (Gui.succ_cnt o + 1) (Gui.set_inputbox (py "") o)) in
  let now := clock w (ticks w) in
  if now - Gui.start_time o =? 0 then (Raise ZeroDivisionError, (o1, tick w))
  else
    match Gui.fetch_word
            (Gui.set_result_text
               (Speed (List.length (Gui.cur_word o)) now (Gui.start_time o)) o1,
             tick w) with
    | (Ok next, (o2, w2)) => (Ok tt, (Gui.set_cur_word next o2, w2))
    | (Raise e, s) => (Raise e, s)
    end.
Proof.
  intros E. unfold Gui.press_return, Gui.enter_text, bind, read, assign, io, speed.
  simpl. rewrite E, str_eqb_refl. simpl.
  destruct (clock w (ticks w) - Gui.start_time o =? 0); [reflexivity|].
  simpl. unfold Gui.set_result_text, Gui.set_result_style, Gui.set_succ_cnt, Gui.set_inputbox.
  simpl.
  match goal with
  | |- context [Gui.fetch_word ?s] => destruct (Gui.fetch_word s) as [[next|e] [o2 w2]]
  end; reflexivity.
Qed.

Lemma press_return_finish (typed : str) (o : Gui.MyWindow) (w : World) :
  strip typed <> Gui.cur_word o ->
  strip typed = finish_practice ->
  Gui.press_return typed (o, w) =
  (Ok tt,
   (Gui.close (Gui.set_result_style (py "color: yellow") (Gui.set_inputbox (py "") o)),
    with_stdout
      (stdout w ++ [{| line_text := Lit (farewell (Gui.succ_cnt o));
                       line_color := None |}]) w)).
Proof.
  intros N E. unfold Gui.press_return, Gui.enter_text, bind, read, assign, io, print, modify.
  simpl. rewrite (str_eqb_neq _ _ N), E, str_eqb_refl. reflexivity.
Qed.

Lemma press_return_wrong (typed : str) (o : Gui.MyWindow) (w : World) :
  strip typed <> Gui.cur_word o ->
  strip typed <> finish_practice ->
  Gui.press_return typed (o, w) =
  (Ok tt,
   (Gui.set_start_time (clock w (ticks w))
      (Gui.set_result_text (Lit (py "wrong!"))
         (Gui.set_result_style (py "color: red") (Gui.set_inputbox (py "") o))),
    tick w)).
Proof.
  intros N1 N2. unfold Gui.press_return, Gui.enter_text, bind, read, assign, io, time_time.
  simpl. rewrite (str_eqb_neq _ _ N1), (str_eqb_neq _ _ N2). reflexivity.
Qed.

(** [enter_text] strips what was typed: the line and the stripped line
    are the same event. *)
Lemma press_return_strip (typed : str) (s : Gui.State) :
  Gui.press_return typed s = Gui.press_return (strip typed) s.
Proof.
  destruct s as [o w].
  destruct (str_eqb_spec (strip typed) (Gui.cur_word o)) as [E|N1].
  - rewrite !press_return_correct; auto. now rewrite strip_idem.
  - destruct (str_eqb_spec (strip typed) finish_practice) as [E|N2].
    + rewrite !press_return_finish; auto; now rewrite strip_idem.
    + rewrite !press_return_wrong; auto; now rewrite strip_idem.
Qed.

(** What every call of [enter_text] keeps, whatever was typed and
    whether or not it raises. *)
Lemma press_return_frame (typed : str) (o : Gui.MyWindow) (w : World) :
  let o' := fst (snd (Gui.press_return typed (o, w))) in
  Gui.words o' = Gui.words o /\
  (Gui.succ_cnt o' = Gui.succ_cnt o \/
   strip typed = Gui.cur_word o /\ Gui.succ_cnt o' = Gui.succ_cnt o + 1) /\
  (Gui.cur_word o' = Gui.cur_word o \/
   In (Gui.cur_word o') (map strip (Gui.words o))).
Proof.
  destruct (str_eqb_spec (strip typed) (Gui.cur_word o)) as [E|N1].
  - rewrite press_return_correct by assumption. cbv zeta.
    destruct (_ =? 0); [simpl; auto|].
    rewrite fetch_word_run.
    assert (P : forall w', Gui.words o <> [] ->
                           In (pick (Gui.words o) w') (map strip (Gui.words o)))
      by (intros; now apply pick_in).
    simpl. destruct (Gui.words o) as [|x ws] eqn:Ews; [simpl; auto|].
    cbv zeta. destruct (web _ _ _); simpl; rewrite ?Ews; auto.
    repeat split; auto. right. apply P. discriminate.
  - destruct (str_eqb_spec (strip typed) finish_practice) as [E|N2].
    + rewrite press_return_finish by assumption. simpl; auto.
    + rewrite press_return_wrong by assumption. simpl; auto.
Qed.

(** A line that strips to the current word is counted, even when the
    rest of the branch raises. *)
Lemma press_return_counts (typed : str) (o : Gui.MyWindow) (w : World) :
  strip typed = Gui.cur_word o ->
  Gui.succ_cnt (fst (snd (Gui.press_return typed (o, w)))) = Gui.succ_cnt o + 1.
Proof.
  intros E. rewrite press_return_correct by exact E. cbv zeta.
  destruct (_ =? 0); [reflexivity|].
  rewrite fetch_word_run. simpl.
  destruct (Gui.words o); [reflexivity|].
  cbv zeta. destruct (web _ _ _); reflexivity.
Qed.

(** ** Running the terminal loop *)

Lemma iteration_no_page (l : Terminal.Locals) (w : World) :
  web w (requests w) (translation_url (Terminal.rand_word l)) = None ->
  Terminal.iteration (l, w) = (Raise RequestException, (l, requested w)).
Proof.
  intros E. unfold Terminal.iteration, bind, read, io. simpl.
  rewrite crawl_translation_run, E. reflexivity.
Qed.

Lemma iteration_eof (l : Terminal.Locals) (w : World) (doc : list Node) :
  web w (requests w) (translation_url (Terminal.rand_word l)) = Some doc ->
  stdin w = [] ->
  Terminal.iteration (l, w) =
  (Raise EOFError,
   (Terminal.set_start_time (clock w (ticks w)) l,
    tick (with_stdout (stdout w ++ [shown (Terminal.rand_word l) doc]) (requested w)))).
Proof.
  intros E I. unfold Terminal.iteration, bind, read, io, assign, input. simpl.
  rewrite crawl_translation_run, E. simpl. rewrite I. reflexivity.
Qed.

Lemma iteration_finish (l : Terminal.Locals) (w : World) (doc : list Node)
    (rest : list str) :
  web w (requests w) (translation_url (Terminal.rand_word l)) = Some doc ->
  stdin w = finish_practice :: rest ->
  Terminal.iteration (l, w) =
  (Raise SystemExit,
   (Terminal.set_start_time (clock w (ticks w)) l,
    say (Lit (farewell (Terminal.succ_cnt l))) "yellow"
      (prompted (Terminal.rand_word l) doc rest w))).
Proof.
  intros E I. unfold Terminal.iteration, bind, read, io, assign, input. simpl.
  rewrite crawl_translation_run, E. simpl. rewrite I. simpl.
  rewrite ?str_eqb_refl. reflexivity.
Qed.

Lemma iteration_wrong (l : Terminal.Locals) (w : World) (doc : list Node)
    (input_word : str) (rest : list str) :
  web w (requests w) (translation_url (Terminal.rand_word l)) = Some doc ->
  stdin w = input_word :: rest ->
  input_word <> finish_practice ->
  input_word <> Terminal.rand_word l ->
  Terminal.iteration (l, w) =
  (Ok tt,
   (Terminal.set_start_time (clock w (ticks w)) l,
    say (Lit (py "wrong!")) "red" (prompted (Terminal.rand_word l) doc rest w))).
Proof.
  intros E I N1 N2. unfold Terminal.iteration, bind, read, io, assign, input. simpl.
  rewrite crawl_translation_run, E. simpl. rewrite I. simpl.
  rewrite (str_eqb_neq _ _ N1). simpl.
  rewrite (str_eqb_neq _ _ N2). reflexivity.
Qed.

Lemma iteration_correct (l : Terminal.Locals) (w : World) (doc : list Node)
    (rest : list str) :
  web w (requests w) (translation_url (Terminal.rand_word l)) = Some doc ->
  stdin w = Terminal.rand_word l :: rest ->
  Terminal.rand_word l <> finish_practice ->
  Terminal.iteration (l, w) =
  let t0 := clock w (ticks w) in
  let now := clock w (S (ticks w)) in
  let l1 := Terminal.set_start_time t0 l in
  let w1 := prompted (Terminal.rand_word l) doc rest w in
  if now - t0 =? 0 then (Raise ZeroDivisionError, (l1, tick w1))
  else
    let l2 := Terminal.set_succ_cnt (Terminal.succ_cnt l + 1) l1 in
    let w2 := say (Speed (List.length (Terminal.rand_word l)) now t0) "green" (tick w1) in
    match Terminal.words l with
    | [] => (Raise ValueError, (l2, w2))
    | _ :: _ => (Ok tt, (Terminal.set_rand_word (pick (Terminal.words l) w) l2, drawn w2))
    end.
Proof.
  intros E I N. unfold Terminal.iteration, bind, read, io, assign, input, speed. simpl.
  rewrite crawl_translation_run, E. simpl. rewrite I. simpl.
  rewrite (str_eqb_neq _ _ N). simpl. rewrite str_eqb_refl.
  unfold speed, bind. simpl.
  destruct (clock w (S (ticks w)) - clock w (ticks w) =? 0); [reflexivity|].
  simpl. unfold Terminal.draw, bind, read, io, assign, random_sample_1. simpl.
  destruct (Terminal.words l); reflexivity.
Qed.

(** What every iteration keeps, whatever is read and whether or not it
    raises. *)
Lemma iteration_frame (l : Terminal.Locals) (w : World) :
  let l' := fst (snd (Terminal.iteration (l, w))) in
  Terminal.words l' = Terminal.words l /\
  (Terminal.succ_cnt l' = Terminal.succ_cnt l \/
   hd_error (stdin w) = Some (Terminal.rand_word l) /\ Terminal.succ_cnt l' = Terminal.succ_cnt l + 1) /\
  (Terminal.rand_word l' = Terminal.rand_word l \/
   In (Terminal.rand_word l') (map strip (Terminal.words l))).
Proof.
  destruct (web w (requests w) (translation_url (Terminal.rand_word l))) as [doc|] eqn:E.
  2:{ rewrite iteration_no_page by assumption. simpl; auto. }
  destruct (stdin w) as [|input_word rest] eqn:I.
  { rewrite (iteration_eof _ _ doc) by assumption. simpl; auto. }
  destruct (str_eqb_spec input_word finish_practice) as [->|N1].
  { rewrite (iteration_finish _ _ doc rest) by assumption. simpl; auto. }
  destruct (str_eqb_spec input_word (Terminal.rand_word l)) as [->|N2].
  - rewrite (iteration_correct _ _ doc rest) by assumption. cbv zeta.
    destruct (_ =? 0); [simpl; auto|].
    assert (P : Terminal.words l <> [] ->
                In (pick (Terminal.words l) w) (map strip (Terminal.words l)))
      by apply pick_in.
    destruct (Terminal.words l) as [|x ws] eqn:Ews; simpl; rewrite ?Ews; auto.
    repeat split; auto. right. apply P. discriminate.
  - rewrite (iteration_wrong _ _ doc input_word rest) by assumption.
    simpl; auto.
Qed.

(** ** Sessions and loops *)

Lemma session_cons (t : str) (rest : list str) (o : Gui.MyWindow) (w : World) :
  Gui.session (t :: rest) (o, w) =
  if Gui.closed o then (Ok tt, (o, w))
  else match Gui.press_return t (o, w) with
       | (Ok _, s') => Gui.session rest s'
       | (Raise e, s') => (Raise e, s')
       end.
Proof.
  simpl. unfold bind at 1. unfold read. simpl.
  destruct (Gui.closed o); reflexivity.
Qed.

Lemma loop_S (fuel : nat) (s : Terminal.State) :
  Terminal.loop (S fuel) s =
  match Terminal.iteration s with
  | (Ok _, s') => Terminal.loop fuel s'
  | (Raise e, s') => (Raise e, s')
  end.
Proof. reflexivity. Qed.

(** A property of the window kept by every [enter_text] is kept by a
    whole session. *)
Lemma session_keeps (P : Gui.MyWindow -> Prop) :
  (forall t o w, P o -> P (fst (snd (Gui.press_return t (o, w))))) ->
  forall typed o w, P o -> P (fst (snd (Gui.session typed (o, w)))).
Proof.
  intros step typed. induction typed as [|t rest IH]; intros o w Ho.
  - exact Ho.
  - rewrite session_cons. destruct (Gui.closed o); [exact Ho|].
    specialize (step t o w Ho).
    destruct (Gui.press_return t (o, w)) as [[[]|e] [o' w']]; simpl in *.
    + now apply IH.
    + exact step.
Qed.

(** The same for the frame of the terminal loop. *)
Lemma loop_keeps (P : Terminal.Locals -> Prop) :
  (forall l w, P l -> P (fst (snd (Terminal.iteration (l, w))))) ->
  forall fuel l w, P l -> P (fst (snd (Terminal.loop fuel (l, w)))).
Proof.
  intros step fuel. induction fuel as [|fuel IH]; intros l w Hl.
  - exact Hl.
  - rewrite loop_S. specialize (step l w Hl).
    destruct (Terminal.iteration (l, w)) as [[[]|e] [l' w']]; simpl in *.
    + now apply IH.
    + exact step.
Qed.

(** An iteration that ends normally has taken one line of input. *)
Lemma iteration_reads (l : Terminal.Locals) (w : World) :
  fst (Terminal.iteration (l, w)) = Ok tt ->
  exists line, stdin w = line :: stdin (snd (snd (Terminal.iteration (l, w)))).
Proof.
  destruct (web w (requests w) (translation_url (Terminal.rand_word l)))
    as [doc|] eqn:E.
  2:{ rewrite iteration_no_page by assumption. discriminate. }
  destruct (stdin w) as [|input_word rest] eqn:I.
  { rewrite (iteration_eof _ _ doc) by assumption. discriminate. }
  destruct (str_eqb_spec input_word finish_practice) as [->|N1].
  { rewrite (iteration_finish _ _ doc rest) by assumption. discriminate. }
  destruct (str_eqb_spec input_word (Terminal.rand_word l)) as [->|N2].
  - rewrite (iteration_correct _ _ doc rest) by assumption. cbv zeta.
    destruct (_ =? 0); [discriminate|].
    destruct (Terminal.words l); [discriminate|].
    intros _. eexists. reflexivity.
  - rewrite (iteration_wrong _ _ doc input_word rest) by assumption.
    intros _. eexists. reflexivity.
Qed.

(** The loop never falls through: with more fuel than lines of input it
    ends by an exception, [SystemExit] on the exit command or whatever
    else was raised first. *)
Lemma loop_ends (fuel : nat) :
  forall l w,
    (List.length (stdin w) < fuel)%nat ->
    exists e, fst (Terminal.loop fuel (l, w)) = Raise e.
Proof.
  induction fuel as [|fuel IH]; intros l w Hlen; [lia|].
  rewrite loop_S.
  pose proof (iteration_reads l w) as R.
  destruct (Terminal.iteration (l, w)) as [[[]|e] [l' w']]; simpl in *.
  - destruct (R eq_refl) as [line E]. apply IH.
    rewrite E in Hlen. simpl in Hlen. lia.
  - now exists e.
Qed.

(** ** The success counter *)

(** C1, as amended.  Typing the exact text of the current word adds
    exactly 1 to [succ_cnt]: in the window always (the current word is a
    stripped string there, as in every window that satisfies its
    invariant), in the terminal whenever the line is read, the word is
    not the exit command and the clock has moved since the word was
    shown.  Whatever is typed, [succ_cnt] never decreases, over one
    event and over any run of events. *)
Theorem C1_success_count :
  (forall o w,
      trimmed (Gui.cur_word o) ->
      Gui.succ_cnt (fst (snd (Gui.press_return (Gui.cur_word o) (o, w))))
      = Gui.succ_cnt o + 1) /\
  (forall ws o w,
      window_ok ws o ->
      Gui.succ_cnt (fst (snd (Gui.press_return (Gui.cur_word o) (o, w))))
      = Gui.succ_cnt o + 1) /\
  (forall l w doc rest,
      web w (requests w) (translation_url (Terminal.rand_word l)) = Some doc ->
      stdin w = Terminal.rand_word l :: rest ->
      Terminal.rand_word l <> finish_practice ->
      clock w (S (ticks w)) <> clock w (ticks w) ->
      Terminal.succ_cnt (fst (snd (Terminal.iteration (l, w))))
      = Terminal.succ_cnt l + 1) /\
  (forall t o w,
      Gui.succ_cnt o <= Gui.succ_cnt (fst (snd (Gui.press_return t (o, w))))) /\
  (forall l w,
      Terminal.succ_cnt l
      <= Terminal.succ_cnt (fst (snd (Terminal.iteration (l, w))))) /\
  (forall typed o w,
      Gui.succ_cnt o <= Gui.succ_cnt (fst (snd (Gui.session typed (o, w))))) /\
  (forall fuel l w,
      Terminal.succ_cnt l
      <= Terminal.succ_cnt (fst (snd (Terminal.loop fuel (l, w))))).
Proof.
  assert (G1 : forall t o w,
             Gui.succ_cnt o
             <= Gui.succ_cnt (fst (snd (Gui.press_return t (o, w))))).
  { intros t o w.
    destruct (press_return_frame t o w) as (_ & [H|[_ H]] & _); lia. }
  assert (T1 : forall l w,
             Terminal.succ_cnt l
             <= Terminal.succ_cnt (fst (snd (Terminal.iteration (l, w))))).
  { intros l w.
    destruct (iteration_frame l w) as (_ & [H|[_ H]] & _); lia. }
  repeat split; auto.
  - intros o w Ht. now apply press_return_counts.
  - intros ws o w (_ & Hin & _). apply press_return_counts.
    now apply (in_strip_trimmed ws).
  - intros l w doc rest Hdoc Hin Hne Hclock.
    rewrite (iteration_correct l w doc rest) by assumption. cbv zeta.
    destruct (Z.eqb_spec (clock w (S (ticks w)) - clock w (ticks w)) 0) as [E|_];
      [lia|].
    destruct (Terminal.words l); reflexivity.
  - intros typed o w.
    apply (session_keeps (fun o' => Gui.succ_cnt o <= Gui.succ_cnt o')); [|lia].
    intros t o1 w1 H. specialize (G1 t o1 w1). lia.
  - intros fuel l w.
    apply (loop_keeps (fun l' => Terminal.succ_cnt l <= Terminal.succ_cnt l'));
      [|lia].
    intros l1 w1 H. specialize (T1 l1 w1). lia.
Qed.

(** C1 at a concrete session: the word ["hello"] typed exactly, in the
    window and in the terminal, takes the counter from 3 to 4. *)
Lemma C1_success_count_witness :
  Gui.succ_cnt
    (fst (snd (Gui.press_return (py "hello")
                 (example_window (py "hello"), example_world [])))) = 4 /\
  Gui.succ_cnt
    (fst (snd (Gui.press_return (py "hello")
                 (opened [py "hello" ++ [LF]] (example_world []),
                  offline_world [])))) = 1 /\
  Terminal.succ_cnt
    (fst (snd (Terminal.iteration
                 (example_locals (py "hello"),
                  example_world [py "hello"])))) = 4.
Proof.
  destruct C1_success_count as (G & R & T & _).
  split; [|split].
  - apply (G (example_window (py "hello")) (example_world [])). reflexivity.
  - apply (R [py "hello" ++ [LF]]
             (opened [py "hello" ++ [LF]] (example_world []))
             (offline_world [])).
    split; [reflexivity|]. split.
    + left. reflexivity.
    + exists (py "translation"). reflexivity.
  - apply (T (example_locals (py "hello")) (example_world [py "hello"])
             (page (py "translation")) []).
    + reflexivity.
    + reflexivity.
    + intros H; vm_compute in H; discriminate.
    + vm_compute. discriminate.
Defined.

(** C1 as stated fails in the terminal when the current word is the exit
    command: the line typed is the exact text of the current word, the
    loop exits and reports the counter as it was, not incremented. *)
Lemma C1_counterexample :
  let l := example_locals finish_practice in
  let w := example_world [finish_practice] in
  hd_error (stdin w) = Some (Terminal.rand_word l) /\
  fst (Terminal.iteration (l, w)) = Raise SystemExit /\
  Terminal.succ_cnt (fst (snd (Terminal.iteration (l, w))))
  <> Terminal.succ_cnt l + 1.
Proof.
  cbv zeta. split; [reflexivity|]. split; [reflexivity|].
  vm_compute. discriminate.
Qed.

(** ** The translation fetcher *)

Lemma Node_induction (P : Node -> Prop) :
  (forall s, P (NText s)) ->
  (forall name cs kids, Forall P kids -> P (NTag name cs kids)) ->
  forall n, P n.
Proof.
  intros Htext Htag. fix IH 1. intros [s|name cs kids].
  - apply Htext.
  - apply Htag. induction kids as [|k kids IHk]; constructor.
    + apply IH.
    + exact IHk.
Qed.

Lemma find_app_first {A} (f : A -> bool) (a b : list A) :
  List.find f (a ++ b) =
  match List.find f a with Some x => Some x | None => List.find f b end.
Proof.
  induction a as [|x a IH]; simpl; [reflexivity|].
  destruct (f x); [reflexivity | exact IH].
Qed.

(** [find_node] returns the first tag with the class, in document order. *)
Lemma find_node_first (cls : str) (n : Node) :
  find_node cls n = List.find (has_class cls) (elements n).
Proof.
  induction n as [s|name cs kids IH] using Node_induction; [reflexivity|].
  simpl. destruct (existsb (str_eqb cls) cs); [reflexivity|].
  induction IH as [|k kids Hk _ IHkids]; [reflexivity|].
  rewrite find_app_first, <- Hk.
  destruct (find_node cls k); [reflexivity | exact IHkids].
Qed.

Lemma find_first (cls : str) (doc : list Node) :
  find cls doc = List.find (has_class cls) (flat_map elements doc).
Proof.
  induction doc as [|n doc IH]; [reflexivity|].
  simpl. rewrite find_app_first, <- find_node_first.
  destruct (find_node cls n); [reflexivity | exact IH].
Qed.

(** C2, as amended.  [crawl_translation] never returns [None].  When the
    request fails it raises; otherwise it returns the text of the first
    element, in document order, whose classes include ["dtrans"] (a text
    that is empty when that element holds none), or else exactly the
    sentinel ["No translation found."], which is not empty. *)
Theorem C2_crawl_translation_result (word : str) (w : World) :
  fst (crawl_translation word w) <> Ok None /\
  (web w (requests w) (translation_url word) = None ->
   fst (crawl_translation word w) = Raise RequestException) /\
  (forall doc,
      web w (requests w) (translation_url word) = Some doc ->
      match List.find (has_class (py "dtrans")) (flat_map elements doc) with
      | Some t => fst (crawl_translation word w) = Ok (Some (text t))
      | None => fst (crawl_translation word w) = Ok (Some sentinel)
      end) /\
  sentinel = py "No translation found." /\
  sentinel <> py "".
Proof.
  rewrite crawl_translation_run. simpl.
  repeat split.
  - destruct (web _ _ _); discriminate.
  - intros ->. reflexivity.
  - intros doc ->. unfold translation_of. rewrite find_first.
    destruct (List.find _ _); reflexivity.
  - discriminate.
Qed.

(** C2 at a concrete page: the translation on the page is returned;
    with the network down the request raises. *)
Lemma C2_crawl_translation_result_witness :
  fst (crawl_translation (py "hello") (example_world []))
  = Ok (Some (py "translation")) /\
  fst (crawl_translation (py "hello") (offline_world []))
  = Raise RequestException.
Proof.
  split.
  - destruct (C2_crawl_translation_result (py "hello") (example_world []))
      as (_ & _ & H & _).
    exact (H (page (py "translation")) eq_refl).
  - destruct (C2_crawl_translation_result (py "hello") (offline_world []))
      as (_ & H & _).
    exact (H eq_refl).
Defined.

(** C2 as stated fails on a page whose ["dtrans"] element holds no text:
    the tag is found, it counts as true, and its empty text is returned. *)
Lemma C2_counterexample :
  let empty_page :=
    [NTag (py "span") [py "trans"; py "dtrans"] [NTag (py "b") [] []]] in
  let w :=
    {| clock := fun _ => 0; rng := fun _ => O;
       web := fun _ _ => Some empty_page; files := fun _ => None;
       ticks := 0; draws := 0; requests := 0; stdin := []; stdout := [] |} in
  fst (crawl_translation (py "hello") w) = Ok (Some (py "")).
Proof. reflexivity. Qed.

(** ** Wrong answers *)

(** An iteration that gets its page restarts the timer, whatever it then
    reads. *)
Lemma iteration_start_time (l : Terminal.Locals) (w : World) (doc : list Node) :
  web w (requests w) (translation_url (Terminal.rand_word l)) = Some doc ->
  Terminal.start_time (fst (snd (Terminal.iteration (l, w))))
  = Some (clock w (ticks w)).
Proof.
  intros E.
  destruct (stdin w) as [|input_word rest] eqn:I.
  { rewrite (iteration_eof _ _ doc) by assumption. reflexivity. }
  destruct (str_eqb_spec input_word finish_practice) as [->|N1].
  { rewrite (iteration_finish _ _ doc rest) by assumption. reflexivity. }
  destruct (str_eqb_spec input_word (Terminal.rand_word l)) as [->|N2].
  - rewrite (iteration_correct _ _ doc rest) by assumption. cbv zeta.
    destruct (_ =? 0); [reflexivity|].
    destruct (Terminal.words l); reflexivity.
  - rewrite (iteration_wrong _ _ doc input_word rest) by assumption.
    reflexivity.
Qed.

(** C3, as amended.  On a wrong answer the window sets [start_time] to
    the clock reading taken at that answer and keeps the word.  The
    terminal keeps the word too, but not the original start time: every
    iteration shows the word again and reads the clock afresh before it
    reads the line, so of two wrong attempts in a row the first is timed
    from one reading and the second from the next. *)
Theorem C3_timer_after_wrong_answer :
  (forall typed o w,
      strip typed <> Gui.cur_word o ->
      strip typed <> finish_practice ->
      let r := Gui.press_return typed (o, w) in
      fst r = Ok tt /\
      Gui.start_time (fst (snd r)) = clock w (ticks w) /\
      Gui.cur_word (fst (snd r)) = Gui.cur_word o) /\
  (forall l w doc1 doc2 first second rest,
      web w (requests w) (translation_url (Terminal.rand_word l)) = Some doc1 ->
      web w (S (requests w)) (translation_url (Terminal.rand_word l)) = Some doc2 ->
      stdin w = first :: second :: rest ->
      first <> finish_practice -> first <> Terminal.rand_word l ->
      second <> finish_practice -> second <> Terminal.rand_word l ->
      let r1 := Terminal.iteration (l, w) in
      let r2 := Terminal.iteration (snd r1) in
      fst r1 = Ok tt /\ fst r2 = Ok tt /\
      Terminal.rand_word (fst (snd r1)) = Terminal.rand_word l /\
      Terminal.rand_word (fst (snd r2)) = Terminal.rand_word l /\
      Terminal.start_time (fst (snd r1)) = Some (clock w (ticks w)) /\
      Terminal.start_time (fst (snd r2)) = Some (clock w (S (ticks w)))) /\
  (forall l w doc,
      web w (requests w) (translation_url (Terminal.rand_word l)) = Some doc ->
      Terminal.start_time (fst (snd (Terminal.iteration (l, w))))
      = Some (clock w (ticks w))).
Proof.
  split; [|split].
  - intros typed o w N1 N2. cbv zeta.
    rewrite press_return_wrong by assumption. simpl. auto.
  - intros l w doc1 doc2 first second rest D1 D2 I F1 F2 S1 S2. cbv zeta.
    rewrite (iteration_wrong l w doc1 first (second :: rest)) by assumption.
    simpl.
    rewrite (iteration_wrong _ _ doc2 second rest); simpl; auto.
    repeat split; reflexivity.
  - exact iteration_start_time.
Qed.

(** C3 at a concrete session: the word is ["hello"], the lines typed are
    ["hullo"] and ["helo"]; the clock reads 100, then 105. *)
Lemma C3_timer_after_wrong_answer_witness :
  Gui.start_time
    (fst (snd (Gui.press_return (py "hullo")
                 (example_window (py "hello"), example_world [])))) = 100 /\
  (let r1 := Terminal.iteration
               (example_locals (py "hello"),
                example_world [py "hullo"; py "helo"]) in
   let r2 := Terminal.iteration (snd r1) in
   Terminal.start_time (fst (snd r1)) = Some 100 /\
   Terminal.start_time (fst (snd r2)) = Some 105) /\
  Terminal.start_time
    (fst (snd (Terminal.iteration
                 (example_locals (py "hello"), example_world [py "hello"]))))
  = Some 100.
Proof.
  destruct C3_timer_after_wrong_answer as (G & T & A). split; [|split].
  - apply (G (py "hullo") (example_window (py "hello")) (example_world [])).
    + intros H; vm_compute in H; discriminate.
    + intros H; vm_compute in H; discriminate.
  - apply (T (example_locals (py "hello"))
             (example_world [py "hullo"; py "helo"])
             (page (py "translation")) (page (py "translation"))
             (py "hullo") (py "helo") []);
      try reflexivity; intros H; vm_compute in H; discriminate.
  - apply (A (example_locals (py "hello")) (example_world [py "hello"])
             (page (py "translation"))).
    reflexivity.
Defined.

(** C3 as stated fails in the terminal: after a second wrong attempt on
    the same word the start time is no longer the one of the first. *)
Lemma C3_counterexample :
  let r1 := Terminal.iteration
              (example_locals (py "hello"),
               example_world [py "hullo"; py "helo"]) in
  let r2 := Terminal.iteration (snd r1) in
  Terminal.rand_word (fst (snd r1)) = py "hello" /\
  Terminal.rand_word (fst (snd r2)) = py "hello" /\
  Terminal.succ_cnt (fst (snd r2)) = 3 /\
  Terminal.start_time (fst (snd r2)) <> Terminal.start_time (fst (snd r1)).
Proof.
  cbv zeta. repeat split; try reflexivity.
  vm_compute. discriminate.
Qed.

Lemma session_wrong (word : str) (typed : list str) :
  Forall (fun t => wrong_for word (strip t)) typed ->
  forall o w,
    Gui.cur_word o = word ->
    let r := Gui.session typed (o, w) in
    fst r = Ok tt /\
    Gui.cur_word (fst (snd r)) = word /\
    Gui.succ_cnt (fst (snd r)) = Gui.succ_cnt o /\
    Gui.closed (fst (snd r)) = Gui.closed o /\
    (typed <> [] -> Gui.closed o = false ->
     Gui.result_text (fst (snd r)) = Lit (py "wrong!")).
Proof.
  induction 1 as [|t rest [N1 N2] _ IH]; intros o w Hw; cbv zeta.
  - simpl. repeat split; auto. congruence.
  - rewrite session_cons. destruct (Gui.closed o) eqn:C.
    + simpl. repeat split; auto. congruence.
    + rewrite press_return_wrong by (rewrite ?Hw; assumption).
      match goal with
      | |- context [Gui.session rest (?o1, ?w1)] =>
          destruct (IH o1 w1 Hw) as (R & W & N & Cl & T)
      end.
      simpl in N, Cl. repeat split; auto; try congruence.
      intros _ _. destruct rest as [|t' rest'].
      * reflexivity.
      * apply T; [discriminate | exact C].
Qed.

Lemma loop_wrong_unread (fuel : nat) :
  forall l w,
    Forall (wrong_for (Terminal.rand_word l)) (stdin w) ->
    let r := Terminal.loop fuel (l, w) in
    Terminal.rand_word (fst (snd r)) = Terminal.rand_word l /\
    Terminal.succ_cnt (fst (snd r)) = Terminal.succ_cnt l.
Proof.
  induction fuel as [|fuel IH]; intros l w F; cbv zeta; [auto|].
  rewrite loop_S.
  destruct (web w (requests w) (translation_url (Terminal.rand_word l)))
    as [doc|] eqn:E.
  2:{ rewrite iteration_no_page by assumption. auto. }
  destruct (stdin w) as [|input_word rest] eqn:I.
  { rewrite (iteration_eof _ _ doc) by assumption. auto. }
  inversion F as [|x xs [N1 N2] Frest]; subst.
  rewrite (iteration_wrong _ _ doc input_word rest) by assumption.
  match goal with
  | |- context [Terminal.loop fuel (?l1, ?w1)] =>
      destruct (IH l1 w1 Frest) as (R & N)
  end.
  auto.
Qed.

Lemma loop_wrong_read (inputs : list str) :
  forall rest l w,
    stdin w = inputs ++ rest ->
    Forall (wrong_for (Terminal.rand_word l)) inputs ->
    (forall n url, web w n url <> None) ->
    let r := Terminal.loop (List.length inputs) (l, w) in
    fst r = Ok tt /\
    stdin (snd (snd r)) = rest /\
    Terminal.rand_word (fst (snd r)) = Terminal.rand_word l /\
    Terminal.succ_cnt (fst (snd r)) = Terminal.succ_cnt l.
Proof.
  induction inputs as [|i inputs IH]; intros rest l w I F Hweb; cbv zeta.
  - simpl. auto.
  - change (List.length (i :: inputs)) with (S (List.length inputs)).
    rewrite loop_S.
    destruct (web w (requests w) (translation_url (Terminal.rand_word l)))
      as [doc|] eqn:E; [|now apply Hweb in E].
    inversion F as [|x xs [N1 N2] Frest]; subst.
    rewrite (iteration_wrong _ _ doc i (inputs ++ rest)) by assumption.
    match goal with
    | |- context [Terminal.loop _ (?l1, ?w1)] =>
        destruct (IH rest l1 w1 eq_refl Frest Hweb) as (R & Sin & W & N)
    end.
    auto.
Qed.

(** C4, as amended.  An answer is wrong when the line, in the form the
    front end compares it (stripped in the window, as read in the
    terminal), is neither the current word nor the exit command.  Any
    number of wrong answers in a row leaves the current word and the
    counter as they were: each one is processed without an exception, and
    the window then shows ["wrong!"]. *)
Theorem C4_wrong_input_idempotent :
  (forall typed o w,
      Forall (fun t => wrong_for (Gui.cur_word o) (strip t)) typed ->
      let r := Gui.session typed (o, w) in
      fst r = Ok tt /\
      Gui.cur_word (fst (snd r)) = Gui.cur_word o /\
      Gui.succ_cnt (fst (snd r)) = Gui.succ_cnt o /\
      Gui.closed (fst (snd r)) = Gui.closed o /\
      (typed <> [] -> Gui.closed o = false ->
       Gui.result_text (fst (snd r)) = Lit (py "wrong!"))) /\
  (forall inputs rest l w,
      stdin w = inputs ++ rest ->
      Forall (wrong_for (Terminal.rand_word l)) inputs ->
      (forall n url, web w n url <> None) ->
      let r := Terminal.loop (List.length inputs) (l, w) in
      fst r = Ok tt /\
      stdin (snd (snd r)) = rest /\
      Terminal.rand_word (fst (snd r)) = Terminal.rand_word l /\
      Terminal.succ_cnt (fst (snd r)) = Terminal.succ_cnt l) /\
  (forall fuel l w,
      Forall (wrong_for (Terminal.rand_word l)) (stdin w) ->
      let r := Terminal.loop fuel (l, w) in
      Terminal.rand_word (fst (snd r)) = Terminal.rand_word l /\
      Terminal.succ_cnt (fst (snd r)) = Terminal.succ_cnt l).
Proof.
  split; [|split].
  - intros typed o w F. now apply (session_wrong (Gui.cur_word o)).
  - intros inputs. apply loop_wrong_read.
  - intros fuel. apply loop_wrong_unread.
Qed.

(** C4 at a concrete session: three wrong lines on the word ["hello"]. *)
Lemma C4_wrong_input_idempotent_witness :
  (let r := Gui.session [py "hullo"; py "helo"; py "hullo"]
              (example_window (py "hello"), example_world []) in
   Gui.cur_word (fst (snd r)) = py "hello" /\
   Gui.succ_cnt (fst (snd r)) = 3) /\
  (let r := Terminal.loop 3
              (example_locals (py "hello"),
               example_world [py "hullo"; py "helo"; py "hullo"; py "hello"]) in
   stdin (snd (snd r)) = [py "hello"] /\
   Terminal.rand_word (fst (snd r)) = py "hello" /\
   Terminal.succ_cnt (fst (snd r)) = 3) /\
  (let r := Terminal.loop 7
              (example_locals (py "hello"),
               offline_world [py "hullo"; py "helo"]) in
   Terminal.rand_word (fst (snd r)) = py "hello" /\
   Terminal.succ_cnt (fst (snd r)) = 3).
Proof.
  assert (NG : forall a : str,
             str_eqb a (py "hello") = false ->
             str_eqb a finish_practice = false ->
             wrong_for (py "hello") a).
  { intros a H1 H2. split; intros ->; vm_compute in H1, H2; discriminate. }
  destruct C4_wrong_input_idempotent as (G & T & U). split; [|split].
  - destruct (G [py "hullo"; py "helo"; py "hullo"]
                (example_window (py "hello")) (example_world []))
      as (_ & W & N & _).
    + repeat constructor; apply NG; reflexivity.
    + split; assumption.
  - destruct (T [py "hullo"; py "helo"; py "hullo"] [py "hello"]
                (example_locals (py "hello"))
                (example_world [py "hullo"; py "helo"; py "hullo"; py "hello"]))
      as (_ & Sin & W & N).
    + reflexivity.
    + repeat constructor; apply NG; reflexivity.
    + intros n url H. discriminate.
    + repeat split; assumption.
  - apply (U 7%nat (example_locals (py "hello"))
             (offline_world [py "hullo"; py "helo"])).
    repeat constructor; apply NG; reflexivity.
Defined.

(** C4 as stated fails in the window: a line that differs from the
    current word by a leading blank is neither the current word nor the
    exit command, yet it is counted and the counter changes. *)
Lemma C4_counterexample :
  let o := example_window (py "hello") in
  let typed := py " hello" in
  typed <> Gui.cur_word o /\
  typed <> finish_practice /\
  Gui.succ_cnt (fst (snd (Gui.press_return typed (o, example_world []))))
  <> Gui.succ_cnt o.
Proof.
  cbv zeta. repeat split; intros H; vm_compute in H; discriminate.
Qed.

(** ** The current word *)

Lemma init_run (ws : list str) (w : World) :
  Gui.init ws w =
  match ws with
  | [] => (Raise ValueError, w)
  | _ :: _ =>
      let picked := pick ws w in
      match web w (requests w) (translation_url picked) with
      | None => (Raise RequestException, requested (drawn w))
      | Some doc =>
          (Ok (Gui.set_cur_word picked
                 (Gui.set_start_time (clock w (ticks w))
                    (Gui.set_question
                       (picked ++ py "  -  " ++ translation_of doc)
                       (Gui.blank ws)))),
           tick (requested (drawn w)))
      end
  end.
Proof.
  unfold Gui.init, bind. rewrite fetch_word_run. simpl.
  destruct ws as [|x ws]; [reflexivity|].
  cbv zeta. destruct (web _ _ _); reflexivity.
Qed.

Lemma init_ok (ws : list str) (w w' : World) (o : Gui.MyWindow) :
  Gui.init ws w = (Ok o, w') -> window_ok ws o.
Proof.
  rewrite init_run. destruct ws as [|x ws]; [discriminate|].
  cbv zeta. destruct (web _ _ _) as [doc|]; [|discriminate].
  intros [= <- _]. repeat split.
  - apply pick_in. discriminate.
  - eexists. reflexivity.
Qed.

Lemma window_ok_same (ws : list str) (o o' : Gui.MyWindow) :
  Gui.words o' = Gui.words o ->
  Gui.cur_word o' = Gui.cur_word o ->
  Gui.question o' = Gui.question o ->
  window_ok ws o -> window_ok ws o'.
Proof.
  intros Hw Hc Hq (Hws & Hin & tr & Ht). unfold window_ok, presents.
  rewrite Hw, Hc, Hq. eauto.
Qed.

Lemma press_return_ok (ws : list str) (t : str) (o : Gui.MyWindow) (w : World) :
  window_ok ws o -> window_ok ws (fst (snd (Gui.press_return t (o, w)))).
Proof.
  intros Hok.
  destruct (str_eqb_spec (strip t) (Gui.cur_word o)) as [E|N1].
  - rewrite press_return_correct by assumption. cbv zeta.
    destruct (_ =? 0); [now apply (window_ok_same ws o)|].
    rewrite fetch_word_run. simpl.
    assert (P : forall w', In (pick (Gui.words o) w') (word_list ws)).
    { intros w'. destruct Hok as (Hws & Hin & _).
      rewrite Hws. apply pick_in. intros ->. exact Hin. }
    destruct (Gui.words o) as [|x rest] eqn:Ews.
    { apply (window_ok_same ws o); auto. }
    cbv zeta. destruct (web _ _ _) as [doc|].
    + destruct Hok as (Hws & _). split; [|split].
      * simpl. congruence.
      * apply P.
      * eexists. reflexivity.
    + apply (window_ok_same ws o); auto.
  - destruct (str_eqb_spec (strip t) finish_practice) as [E|N2].
    + rewrite press_return_finish by assumption.
      now apply (window_ok_same ws o).
    + rewrite press_return_wrong by assumption.
      now apply (window_ok_same ws o).
Qed.

Lemma draw_run (l : Terminal.Locals) (w : World) :
  Terminal.draw (l, w) =
  match Terminal.words l with
  | [] => (Raise ValueError, (l, w))
  | _ :: _ =>
      (Ok tt, (Terminal.set_rand_word (pick (Terminal.words l) w) l, drawn w))
  end.
Proof.
  unfold Terminal.draw, bind, read, io, assign, random_sample_1. simpl.
  destruct (Terminal.words l); reflexivity.
Qed.

Lemma iteration_ok (ws : list str) (l : Terminal.Locals) (w : World) :
  frame_ok ws l -> frame_ok ws (fst (snd (Terminal.iteration (l, w)))).
Proof.
  intros [Hws Hin].
  destruct (iteration_frame l w) as (Hw & _ & Hr).
  split; [congruence|].
  destruct Hr as [->|Hr]; [exact Hin|].
  unfold word_list. now rewrite <- Hws.
Qed.

(** The frame of [terminal_typing_practice] once the first word is drawn
    and the counter set. *)
Lemma body_run (fuel : nat) (ws : list str) (w : World) :
  Terminal.body fuel (Terminal.entry ws, w) =
  match ws with
  | [] => (Raise ValueError, (Terminal.entry ws, w))
  | _ :: _ =>
      Terminal.loop fuel
        (Terminal.set_succ_cnt 0
           (Terminal.set_rand_word (pick ws w) (Terminal.entry ws)),
         drawn w)
  end.
Proof.
  unfold Terminal.body, bind at 1. rewrite draw_run. simpl.
  destruct ws; reflexivity.
Qed.

(** C5.  The current word is always a member of the WordList, the loaded
    lines trimmed: the window has it so once built and keeps it through
    every [enter_text] and every session, where it also presents that
    word in the question label; the terminal has it so from the first draw
    and through every iteration.  With a word list of one line the word
    is that line, trimmed, at every moment. *)
Theorem C5_current_word_in_word_list :
  (forall ws w w' o, Gui.init ws w = (Ok o, w') -> window_ok ws o) /\
  (forall ws t o w,
      window_ok ws o -> window_ok ws (fst (snd (Gui.press_return t (o, w))))) /\
  (forall ws typed o w,
      window_ok ws o -> window_ok ws (fst (snd (Gui.session typed (o, w))))) /\
  (forall ws l w,
      frame_ok ws l -> frame_ok ws (fst (snd (Terminal.iteration (l, w))))) /\
  (forall ws fuel w,
      ws <> [] ->
      frame_ok ws (fst (snd (Terminal.body fuel (Terminal.entry ws, w))))) /\
  (forall x typed w w' o,
      Gui.init [x] w = (Ok o, w') ->
      Gui.cur_word (fst (snd (Gui.session typed (o, w')))) = strip x /\
      presents (fst (snd (Gui.session typed (o, w'))))) /\
  (forall x fuel w,
      Terminal.rand_word (fst (snd (Terminal.body fuel (Terminal.entry [x], w))))
      = strip x).
Proof.
  assert (S1 : forall ws typed o w,
             window_ok ws o ->
             window_ok ws (fst (snd (Gui.session typed (o, w))))).
  { intros ws typed o w. apply (session_keeps (window_ok ws)).
    intros t o1 w1. apply press_return_ok. }
  assert (B1 : forall ws fuel w,
             ws <> [] ->
             frame_ok ws (fst (snd (Terminal.body fuel (Terminal.entry ws, w))))).
  { intros ws fuel w Hne. rewrite body_run.
    destruct ws as [|x ws']; [congruence|].
    apply (loop_keeps (frame_ok (x :: ws'))).
    - intros l1 w1. apply iteration_ok.
    - split; [reflexivity|]. apply (pick_in (x :: ws') w). discriminate. }
  refine (conj _ (conj _ (conj _ (conj _ (conj _ (conj _ _)))))).
  - intros ws w w' o. apply init_ok.
  - intros ws t o w. apply press_return_ok.
  - exact S1.
  - intros ws l w. apply iteration_ok.
  - exact B1.
  - intros x typed w w' o H. apply init_ok in H.
    destruct (S1 [x] typed o w' H) as (_ & [E|[]] & P). now split.
  - intros x fuel w.
    destruct (B1 [x] fuel w) as (_ & [E|[]]); [discriminate | now symmetry].
Qed.

(** C5 at a concrete session over the one-line list ["hello\n"]: the
    window as built, after one event and after a right and a wrong
    answer, and the terminal after two iterations, hold that word. *)
Lemma C5_current_word_in_word_list_witness :
  let ws := [py "hello" ++ [LF]] in
  let w := example_world [py "hello"; py "hullo"] in
  window_ok ws (opened ws w) /\
  window_ok ws
    (fst (snd (Gui.press_return (py "hello") (example_window (py "hello"), w)))) /\
  window_ok ws
    (fst (snd (Gui.session [py "hello"; py "hullo"]
                 (example_window (py "hello"), w)))) /\
  frame_ok ws (fst (snd (Terminal.iteration (example_locals (py "hello"), w)))) /\
  frame_ok ws (fst (snd (Terminal.body 2 (Terminal.entry ws, w)))) /\
  Gui.cur_word
    (fst (snd (Gui.session [py "hello"; py "hullo"]
                 (opened ws w, snd (Gui.init ws w))))) = py "hello".
Proof.
  cbv zeta.
  destruct C5_current_word_in_word_list as (I & P & S & It & B & O & _).
  assert (W : window_ok [py "hello" ++ [LF]] (example_window (py "hello"))).
  { split; [reflexivity|]. split.
    - left. reflexivity.
    - exists (py "translation"). reflexivity. }
  refine (conj _ (conj _ (conj _ (conj _ (conj _ _))))).
  - apply (I _ (example_world [py "hello"; py "hullo"])
             (snd (Gui.init [py "hello" ++ [LF]]
                     (example_world [py "hello"; py "hullo"])))).
    reflexivity.
  - apply P. exact W.
  - apply S. exact W.
  - apply It. split; [reflexivity | left; reflexivity].
  - apply B. discriminate.
  - apply (O (py "hello" ++ [LF]) [py "hello"; py "hullo"]
             (example_world [py "hello"; py "hullo"])).
    reflexivity.
Defined.

(** ** The farewell line *)

Lemma py_String (a : ascii) (s : string) : py (String a s) = N_of_ascii a :: py s.
Proof. reflexivity. Qed.

Lemma ascii_of_str_py (s : string) : ascii_of_str (py s) = s.
Proof.
  unfold ascii_of_str, py. rewrite map_map.
  rewrite (map_ext _ (fun a => a)) by apply ascii_N_embedding.
  rewrite map_id. apply string_of_list_ascii_of_string.
Qed.

Lemma int_of_str_of_int (n : Z) : int_of_str (str_of_int n) = Some n.
Proof.
  unfold int_of_str, str_of_int. rewrite ascii_of_str_py.
  rewrite NilZero.isi.
  - simpl. f_equal. apply DecimalZ.of_to.
  - destruct n; simpl; try discriminate.
    intros [= H]. now apply DecimalPos.Unsigned.to_uint_nonnil in H.
  - destruct n; simpl; try discriminate.
    intros [= H]. now apply DecimalPos.Unsigned.to_uint_nonnil in H.
Qed.

Lemma uint_no_blank (d : Decimal.uint) : no_blank (py (NilEmpty.string_of_uint d)).
Proof.
  induction d; simpl; try rewrite py_String; constructor;
    try discriminate; assumption.
Qed.

Lemma str_of_int_no_blank (n : Z) : no_blank (str_of_int n).
Proof.
  unfold str_of_int.
  assert (U : forall d, no_blank (py (NilZero.string_of_uint d))).
  { intros d. destruct d; try apply uint_no_blank.
    repeat constructor; discriminate. }
  destruct (Z.to_int n) as [d|d]; simpl.
  - apply U.
  - rewrite py_String. constructor; [discriminate | apply U].
Qed.

Lemma until_blank_app (a b : str) :
  no_blank a -> until_blank (a ++ 32%N :: b) = a.
Proof.
  induction 1 as [|c a Hc _ IH]; simpl.
  - reflexivity.
  - destruct (N.eqb_spec c 32); [contradiction|]. now rewrite IH.
Qed.

(** The count printed in the farewell line reads back as the counter. *)
Lemma reported_count_farewell (n : Z) : reported_count (farewell n) = Some n.
Proof.
  unfold reported_count, farewell.
  change (skipn 10 (py "Practiced " ++ ?x)) with x.
  change (py " word" ++ ?x) with (32%N :: py "word" ++ x).
  rewrite until_blank_app by apply str_of_int_no_blank.
  apply int_of_str_of_int.
Qed.

(** ** The exit command *)

Lemma session_closed (more : list str) (o : Gui.MyWindow) (w : World) :
  Gui.closed o = true -> Gui.session more (o, w) = (Ok tt, (o, w)).
Proof.
  intros C. destruct more as [|t rest]; [reflexivity|].
  rewrite session_cons, C. reflexivity.
Qed.

(** C6, as amended.  When the line is the exit command, and in the
    window the current word is not itself that command, the front end
    exits: the window is closed and takes no further event, the terminal
    loop ends with [SystemExit] whatever fuel is left.  The farewell line
    is printed last and the count in it reads back as [succ_cnt]
    exactly.  The transition itself leaves the word, the counter, the
    start time and the word list as they were, draws no word, makes no
    request and does not read the clock. *)
Theorem C6_finish_practice :
  (forall typed o w,
      strip typed = finish_practice ->
      Gui.cur_word o <> finish_practice ->
      let r := Gui.press_return typed (o, w) in
      let o' := fst (snd r) in
      let w' := snd (snd r) in
      fst r = Ok tt /\
      Gui.closed o' = true /\
      stdout w' = stdout w ++ [{| line_text := Lit (farewell (Gui.succ_cnt o));
                                  line_color := None |}] /\
      Gui.succ_cnt o' = Gui.succ_cnt o /\
      Gui.cur_word o' = Gui.cur_word o /\
      Gui.start_time o' = Gui.start_time o /\
      Gui.words o' = Gui.words o /\
      Gui.question o' = Gui.question o /\
      ticks w' = ticks w /\ draws w' = draws w /\ requests w' = requests w /\
      (forall more, Gui.session more (snd r) = (Ok tt, snd r))) /\
  (forall l w doc rest,
      web w (requests w) (translation_url (Terminal.rand_word l)) = Some doc ->
      stdin w = finish_practice :: rest ->
      let r := Terminal.iteration (l, w) in
      let l' := fst (snd r) in
      let w' := snd (snd r) in
      fst r = Raise SystemExit /\
      stdout w' = stdout w ++ [shown (Terminal.rand_word l) doc;
                               {| line_text := Lit (farewell (Terminal.succ_cnt l));
                                  line_color := Some (py "yellow") |}] /\
      Terminal.succ_cnt l' = Terminal.succ_cnt l /\
      Terminal.rand_word l' = Terminal.rand_word l /\
      Terminal.words l' = Terminal.words l /\
      Terminal.start_time l' = Some (clock w (ticks w)) /\
      stdin w' = rest /\ draws w' = draws w /\ ticks w' = S (ticks w) /\
      (forall fuel, Terminal.loop (S fuel) (l, w) = r)) /\
  (forall n, reported_count (farewell n) = Some n).
Proof.
  split; [|split].
  - intros typed o w E N. cbv zeta.
    rewrite press_return_finish by congruence. simpl.
    repeat split. intros more. now apply session_closed.
  - intros l w doc rest D I. cbv zeta.
    assert (L : forall fuel,
               Terminal.loop (S fuel) (l, w) = Terminal.iteration (l, w)).
    { intros fuel. rewrite loop_S.
      rewrite (iteration_finish l w doc rest) by assumption. reflexivity. }
    rewrite (iteration_finish l w doc rest) in * by assumption. simpl.
    rewrite <- app_assoc. repeat split. exact L.
  - exact reported_count_farewell.
Qed.

(** C6 at a concrete session: the exit command, typed with a trailing
    blank in the window and as it is in the terminal, after three correct
    answers. *)
Lemma C6_finish_practice_witness :
  (let r := Gui.press_return (py "finish practice ")
              (example_window (py "hello"), example_world []) in
   Gui.closed (fst (snd r)) = true /\
   stdout (snd (snd r)) = [{| line_text := Lit (py "Practiced 3 words!");
                              line_color := None |}]) /\
  fst (Terminal.iteration
         (example_locals (py "hello"), example_world [py "finish practice"]))
  = Raise SystemExit.
Proof.
  destruct C6_finish_practice as (G & T & _). split.
  - destruct (G (py "finish practice ") (example_window (py "hello"))
                (example_world [])) as (_ & C & O & _).
    + reflexivity.
    + intros H; vm_compute in H; discriminate.
    + split; [exact C | exact O].
  - destruct (T (example_locals (py "hello"))
                (example_world [py "finish practice"])
                (page (py "translation")) []) as (R & _).
    + reflexivity.
    + reflexivity.
    + exact R.
Defined.

(** C6 as stated fails in the window when the current word is the exit
    command: typing it is scored as a correct answer, the window stays
    open and no farewell is printed. *)
Lemma C6_counterexample :
  let r := Gui.press_return finish_practice
             (example_window finish_practice, example_world []) in
  fst r = Ok tt /\
  Gui.closed (fst (snd r)) = false /\
  stdout (snd (snd r)) = [] /\
  Gui.succ_cnt (fst (snd r)) = 4.
Proof. cbv zeta. repeat split; reflexivity. Qed.

(** ** The empty word list *)

(** C7, as amended.  With an empty word list the draw fails, and the
    error is the [ValueError] that [random.sample] raises for a sample
    larger than the population, not an [IndexError].  Nothing catches it:
    it leaves [fetch_word], the constructor of the window and
    [terminal_typing_practice], with the state untouched.  A list that is
    not empty never makes the draw fail. *)
Theorem C7_empty_word_list :
  (forall w, random_sample_1 [] w = (Raise ValueError, w)) /\
  (forall o w,
      Gui.words o = [] -> Gui.fetch_word (o, w) = (Raise ValueError, (o, w))) /\
  (forall w, Gui.init [] w = (Raise ValueError, w)) /\
  (forall l w,
      Terminal.words l = [] -> Terminal.draw (l, w) = (Raise ValueError, (l, w))) /\
  (forall fuel w,
      Terminal.terminal_typing_practice fuel [] w = (Raise ValueError, w)) /\
  (forall l w, Terminal.words l <> [] -> fst (Terminal.draw (l, w)) = Ok tt).
Proof.
  refine (conj _ (conj _ (conj _ (conj _ (conj _ _))))).
  - reflexivity.
  - intros o w E. rewrite fetch_word_run, E. reflexivity.
  - intros w. rewrite init_run. reflexivity.
  - intros l w E. rewrite draw_run, E. reflexivity.
  - intros fuel w. unfold Terminal.terminal_typing_practice.
    rewrite body_run. reflexivity.
  - intros l w N. rewrite draw_run.
    destruct (Terminal.words l); [congruence | reflexivity].
Qed.

(** C7 at a concrete window and frame with no words, and at a frame
    with one. *)
Lemma C7_empty_word_list_witness :
  fst (Gui.fetch_word (Gui.blank [], example_world [])) = Raise ValueError /\
  fst (Terminal.draw (Terminal.entry [], example_world [])) = Raise ValueError /\
  fst (Terminal.draw (example_locals (py "hello"), example_world [])) = Ok tt.
Proof.
  destruct C7_empty_word_list as (_ & G & _ & T & _ & D). split; [|split].
  - rewrite (G (Gui.blank []) (example_world []) eq_refl). reflexivity.
  - rewrite (T (Terminal.entry []) (example_world []) eq_refl). reflexivity.
  - apply D. discriminate.
Defined.

(** C7 as stated names the wrong error: on the empty list neither front
    end fails with an [IndexError]. *)
Lemma C7_counterexample :
  fst (Gui.init [] (example_world [])) <> Raise IndexError /\
  fst (Terminal.terminal_typing_practice 1 [] (example_world []))
  <> Raise IndexError.
Proof. split; vm_compute; discriminate. Qed.

(** ** Decoding a file *)

Lemma between_true (lo hi b : N) :
  (lo <= b <= hi)%N -> between lo hi b = true.
Proof.
  intros [H1 H2]. unfold between.
  apply andb_true_intro. split; now apply N.leb_le.
Qed.

Lemma between_false (lo hi b : N) :
  (b < lo \/ hi < b)%N -> between lo hi b = false.
Proof.
  intros H. unfold between. apply andb_false_iff.
  destruct H as [H|H]; [left | right]; now apply N.leb_gt.
Qed.

Lemma byte_of_to_N (n : N) : (n <= 255)%N -> Byte.to_N (byte_of n) = n.
Proof.
  intros H. unfold byte_of. destruct (Byte.of_N n) as [b|] eqn:E.
  - now apply Byte.to_of_N.
  - apply Byte.of_N_None_iff in E. lia.
Qed.

Lemma decode_1 (b0 : N) (rest : list N) :
  (b0 < 128)%N ->
  utf8_decode_N (b0 :: rest) = option_map (cons b0) (utf8_decode_N rest).
Proof.
  intros H. cbn [utf8_decode_N].
  now rewrite (proj2 (N.ltb_lt b0 128) H).
Qed.

Lemma decode_2 (b0 b1 : N) (rest : list N) :
  (194 <= b0 <= 223)%N -> (128 <= b1 <= 191)%N ->
  utf8_decode_N (b0 :: b1 :: rest)
  = option_map (cons ((b0 - 192) * 64 + (b1 - 128))%N) (utf8_decode_N rest).
Proof.
  intros H0 H1. cbn [utf8_decode_N].
  rewrite (proj2 (N.ltb_ge b0 128)) by lia.
  rewrite (between_true 194 223 b0 H0).
  unfold continuation. now rewrite (between_true 128 191 b1 H1).
Qed.

Lemma decode_3 (b0 b1 b2 : N) (rest : list N) :
  (224 <= b0 <= 239)%N -> (128 <= b1 <= 191)%N -> (128 <= b2 <= 191)%N ->
  (b0 = 224 -> 160 <= b1)%N -> (b0 = 237 -> b1 <= 159)%N ->
  utf8_decode_N (b0 :: b1 :: b2 :: rest)
  = option_map (cons ((b0 - 224) * 4096 + (b1 - 128) * 64 + (b2 - 128))%N)
               (utf8_decode_N rest).
Proof.
  intros H0 H1 H2 Hlo Hhi. cbn [utf8_decode_N].
  rewrite (proj2 (N.ltb_ge b0 128)) by lia.
  rewrite (between_false 194 223 b0) by lia.
  rewrite (between_true 224 239 b0 H0).
  unfold continuation. rewrite (between_true 128 191 b2 H2).
  rewrite between_true; [reflexivity|].
  destruct (N.eqb_spec b0 224), (N.eqb_spec b0 237); lia.
Qed.

Lemma decode_4 (b0 b1 b2 b3 : N) (rest : list N) :
  (240 <= b0 <= 244)%N -> (128 <= b1 <= 191)%N ->
  (128 <= b2 <= 191)%N -> (128 <= b3 <= 191)%N ->
  (b0 = 240 -> 144 <= b1)%N -> (b0 = 244 -> b1 <= 143)%N ->
  utf8_decode_N (b0 :: b1 :: b2 :: b3 :: rest)
  = option_map (cons ((b0 - 240) * 262144 + (b1 - 128) * 4096
                      + (b2 - 128) * 64 + (b3 - 128))%N)
               (utf8_decode_N rest).
Proof.
  intros H0 H1 H2 H3 Hlo Hhi. cbn [utf8_decode_N].
  rewrite (proj2 (N.ltb_ge b0 128)) by lia.
  rewrite (between_false 194 223 b0) by lia.
  rewrite (between_false 224 239 b0) by lia.
  rewrite (between_true 240 244 b0 H0).
  unfold continuation.
  rewrite (between_true 128 191 b2 H2), (between_true 128 191 b3 H3).
  rewrite between_true; [reflexivity|].
  destruct (N.eqb_spec b0 240), (N.eqb_spec b0 244); lia.
Qed.

Lemma decode_encode_char (c : char) (rest : list N) :
  scalar c ->
  utf8_decode_N (map Byte.to_N (utf8_encode_char c) ++ rest)
  = option_map (cons c) (utf8_decode_N rest).
Proof.
  intros Hc. unfold scalar in Hc. unfold utf8_encode_char.
  pose proof (N.div_mod' c 64) as D0.
  assert (M0 : (c mod 64 < 64)%N) by (apply N.mod_lt; discriminate).
  pose proof (N.div_mod' (c / 64) 64) as D1.
  assert (M1 : ((c / 64) mod 64 < 64)%N) by (apply N.mod_lt; discriminate).
  pose proof (N.div_mod' (c / 4096) 64) as D2.
  assert (M2 : ((c / 4096) mod 64 < 64)%N) by (apply N.mod_lt; discriminate).
  assert (Q2 : (c / 4096 = c / 64 / 64)%N) by (now rewrite N.Div0.div_div).
  assert (Q3 : (c / 262144 = c / 4096 / 64)%N) by (now rewrite N.Div0.div_div).
  rewrite Q3. rewrite <- Q2 in D1.
  generalize dependent (c / 4096 / 64)%N.
  generalize dependent ((c / 4096) mod 64)%N.
  generalize dependent (c / 4096)%N.
  generalize dependent ((c / 64) mod 64)%N.
  generalize dependent (c / 64)%N.
  generalize dependent (c mod 64)%N.
  intros r0 M0 q1 D0 r1 M1 q2 D1 Q2 r2 M2 q3 D2 Q3.
  destruct (N.ltb_spec c 128).
  { cbn [map app]. rewrite byte_of_to_N by lia. now apply decode_1. }
  destruct (N.ltb_spec c 2048).
  { cbn [map app]. rewrite !byte_of_to_N by lia.
    rewrite decode_2 by lia. do 2 f_equal. lia. }
  destruct (N.ltb_spec c 65536).
  { cbn [map app]. rewrite !byte_of_to_N by lia.
    rewrite decode_3 by lia. do 2 f_equal. lia. }
  cbn [map app]. rewrite !byte_of_to_N by lia.
  rewrite decode_4 by lia. do 2 f_equal. lia.
Qed.

(** Decoding undoes encoding: a text written to a file is the text read
    back. *)
Lemma utf8_decode_encode (s : str) :
  Forall scalar s -> utf8_decode (utf8_encode s) = Some s.
Proof.
  unfold utf8_decode, utf8_encode.
  induction 1 as [|c s Hc _ IH]; [reflexivity|].
  cbn [flat_map]. rewrite map_app, decode_encode_char by exact Hc.
  now rewrite IH.
Qed.

(** ** The lines of a file *)

Lemma plain_cons (c : char) (body : str) :
  c <> LF -> c <> CR -> plain body -> plain (c :: body).
Proof.
  intros H1 H2 [A B]. split; intros [E|E]; congruence || auto.
Qed.

Lemma plain_tail (c : char) (body : str) :
  plain (c :: body) -> c <> LF /\ c <> CR /\ plain body.
Proof.
  intros [A B]. repeat split.
  - intros ->. apply A. now left.
  - intros ->. apply B. now left.
  - intros H. apply A. now right.
  - intros H. apply B. now right.
Qed.

Lemma readlines_RawLines (s : str) :
  RawLines s (readlines (universal_newlines s)).
Proof.
  assert (G : forall n s, (List.length s <= n)%nat ->
                          RawLines s (readlines (universal_newlines s))).
  { clear s. induction n as [|n IH]; intros [|c r] Hlen; simpl in Hlen;
      try lia; try constructor.
    cbn [universal_newlines].
    destruct (N.eqb_spec c CR) as [->|Hcr].
    - destruct r as [|d r'].
      + apply (RawLines_cr [] [] []); [split; intros [] | discriminate | constructor].
      + destruct (N.eqb_spec d LF) as [->|Hd].
        * cbn [readlines]. change (LF =? LF)%N with true. cbv iota.
          apply (RawLines_crlf [] r'); [split; intros []|].
          apply IH. simpl in Hlen. lia.
        * cbn [readlines]. change (LF =? LF)%N with true. cbv iota.
          apply (RawLines_cr [] (d :: r')); [split; intros [] | |].
          -- simpl. congruence.
          -- apply IH. lia.
    - cbn [readlines]. destruct (N.eqb_spec c LF) as [->|Hlf].
      + apply (RawLines_lf [] r); [split; intros []|]. apply IH. lia.
      + assert (R : RawLines r (readlines (universal_newlines r)))
          by (apply IH; lia).
        assert (Pc : forall body, plain body -> plain (c :: body))
          by (intros body; now apply plain_cons).
        destruct (readlines (universal_newlines r)) as [|l ls] eqn:E.
        * inversion R; subst.
          apply RawLines_last; [discriminate|]. apply Pc. split; intros [].
        * inversion R as [|body Hne Hp|body t ls' Hp Ht|body t ls' Hp Ht
                          |body t ls' Hp Hhd Ht]; subst.
          -- apply (RawLines_last (c :: l)); [discriminate | now apply Pc].
          -- apply (RawLines_lf (c :: body)); [now apply Pc | assumption].
          -- apply (RawLines_crlf (c :: body)); [now apply Pc | assumption].
          -- apply (RawLines_cr (c :: body)); [now apply Pc | assumption..]. }
  apply (G (List.length s)). lia.
Qed.

Lemma universal_newlines_lf (body t : str) :
  plain body ->
  universal_newlines (body ++ LF :: t) = body ++ LF :: universal_newlines t.
Proof.
  induction body as [|c r IH]; intros P.
  - reflexivity.
  - apply plain_tail in P as (_ & Hcr & P). cbn [app universal_newlines].
    destruct (N.eqb_spec c CR); [congruence|]. now rewrite IH.
Qed.

Lemma universal_newlines_crlf (body t : str) :
  plain body ->
  universal_newlines (body ++ CR :: LF :: t) = body ++ LF :: universal_newlines t.
Proof.
  induction body as [|c r IH]; intros P.
  - reflexivity.
  - apply plain_tail in P as (_ & Hcr & P). cbn [app universal_newlines].
    destruct (N.eqb_spec c CR); [congruence|]. now rewrite IH.
Qed.

Lemma universal_newlines_cr (body t : str) :
  plain body -> hd_error t <> Some LF ->
  universal_newlines (body ++ CR :: t) = body ++ LF :: universal_newlines t.
Proof.
  induction body as [|c r IH]; intros P H.
  - cbn [app universal_newlines]. change (CR =? CR)%N with true. cbv iota.
    destruct t as [|d t']; [reflexivity|].
    destruct (N.eqb_spec d LF) as [->|_]; [now elim H | reflexivity].
  - apply plain_tail in P as (_ & Hcr & P). cbn [app universal_newlines].
    destruct (N.eqb_spec c CR); [congruence|]. now rewrite IH.
Qed.

Lemma RawLines_unique (t : str) (ls : list str) :
  RawLines t ls -> ls = readlines (universal_newlines t).
Proof.
  induction 1 as [|body Hne [P1 P2]|body t ls P _ IH|body t ls P _ IH
                  |body t ls P Hhd _ IH].
  - reflexivity.
  - rewrite universal_newlines_id by exact P2.
    symmetry. now apply readlines_last.
  - rewrite universal_newlines_lf by exact P.
    rewrite readlines_cons by apply P. now rewrite IH.
  - rewrite universal_newlines_crlf by exact P.
    rewrite readlines_cons by apply P. now rewrite IH.
  - rewrite universal_newlines_cr by assumption.
    rewrite readlines_cons by apply P. now rewrite IH.
Qed.

(** ** Loading the word list *)

(** C8, as amended.  [read_file] raises [IOError] exactly when the file
    cannot be opened.  When the file opens and its bytes are not valid
    UTF-8 it raises [UnicodeDecodeError].  Otherwise it returns one entry
    per line of the text of the file, a line ending at ["\n"], at
    ["\r\n"] or at a lone ["\r"]: each entry is the line as it stands,
    trailing whitespace included, with ["\n"] in place of its terminator,
    and no other list of entries is that.  The entries put end to end
    hold no ["\r"]; for a file without ["\r"] they are the text itself.
    In every case the world is left as it was. *)
Theorem C8_read_file (file : str) (w : World) :
  (fst (read_file file w) = Raise IOError <-> files w file = None) /\
  (forall raw,
      files w file = Some raw -> utf8_decode raw = None ->
      fst (read_file file w) = Raise UnicodeDecodeError) /\
  (forall content,
      file_text w file = Some content ->
      exists ls,
        fst (read_file file w) = Ok ls /\
        RawLines content ls /\
        (forall ls', RawLines content ls' -> ls' = ls) /\
        Lines (universal_newlines content) ls /\
        List.concat ls = universal_newlines content /\
        ~ In CR (List.concat ls) /\
        (forall ls', Lines (universal_newlines content) ls' -> ls' = ls) /\
        (~ In CR content -> Lines content ls /\ List.concat ls = content)) /\
  snd (read_file file w) = w.
Proof.
  unfold read_file, file_text.
  destruct (files w file) as [raw|] eqn:E.
  2:{ simpl. split; [split; reflexivity|]. split; [discriminate|].
      split; [discriminate | reflexivity]. }
  destruct (utf8_decode raw) as [content|] eqn:D; simpl.
  - split; [split; discriminate|]. split; [intros r [= <-]; congruence|].
    split; [|reflexivity].
    intros c [= <-]. exists (readlines (universal_newlines content)).
    split; [reflexivity|]. split; [apply readlines_RawLines|].
    split; [apply RawLines_unique|].
    split; [apply readlines_Lines|].
    split; [apply Lines_concat, readlines_Lines|].
    split.
    { rewrite (Lines_concat _ _ (readlines_Lines _)).
      apply universal_newlines_no_CR. }
    split; [apply Lines_unique|].
    intros NoCR. rewrite (universal_newlines_id content NoCR).
    split; [apply readlines_Lines | apply Lines_concat, readlines_Lines].
  - split; [split; discriminate|]. split; [reflexivity|].
    split; [discriminate | reflexivity].
Qed.

(** C8 at concrete files: one whose three line ends are a ["\r\n"], a
    lone ["\r"] and a ["\n"], with a blank before the first and a last
    line that has none; one that is not there; one that does not
    decode. *)
Lemma C8_read_file_witness :
  let content :=
    py "hello " ++ [CR; LF] ++ py "wor" ++ [CR] ++ py "ld" ++ [LF] ++ py "last" in
  fst (read_file (py "Oxford 5000.txt") (example_disk content))
  = Ok [py "hello " ++ [LF]; py "wor" ++ [LF]; py "ld" ++ [LF]; py "last"] /\
  fst (read_file (py "Oxford 5000.txt")
         (example_disk (py "hello " ++ [LF] ++ py "world" ++ [LF])))
  = Ok [py "hello " ++ [LF]; py "world" ++ [LF]] /\
  List.concat [py "hello " ++ [LF]; py "world" ++ [LF]]
  = py "hello " ++ [LF] ++ py "world" ++ [LF] /\
  fst (read_file (py "missing.txt") (example_disk (py "hello"))) = Raise IOError /\
  fst (read_file (py "Oxford 5000.txt") garbled_disk) = Raise UnicodeDecodeError.
Proof.
  cbv zeta.
  refine (conj _ (conj _ (conj _ (conj _ _)))).
  - destruct (C8_read_file (py "Oxford 5000.txt")
                (example_disk (py "hello " ++ [CR; LF] ++ py "wor" ++ [CR]
                               ++ py "ld" ++ [LF] ++ py "last")))
      as (_ & _ & H & _).
    destruct (H _ eq_refl) as (ls & R & L & _).
    rewrite R, (RawLines_unique _ _ L). reflexivity.
  - destruct (C8_read_file (py "Oxford 5000.txt")
                (example_disk (py "hello " ++ [LF] ++ py "world" ++ [LF])))
      as (_ & _ & H & _).
    destruct (H _ eq_refl) as (ls & R & L & _).
    rewrite R, (RawLines_unique _ _ L). reflexivity.
  - destruct (C8_read_file (py "Oxford 5000.txt")
                (example_disk (py "hello " ++ [LF] ++ py "world" ++ [LF])))
      as (_ & _ & H & _).
    destruct (H _ eq_refl) as (ls & _ & L & _ & _ & _ & _ & _ & K).
    rewrite <- (RawLines_unique _ _ L : ls = [py "hello " ++ [LF]; py "world" ++ [LF]]).
    apply K. intros C. vm_compute in C. intuition discriminate.
  - apply (C8_read_file (py "missing.txt") (example_disk (py "hello"))).
    reflexivity.
  - destruct (C8_read_file (py "Oxford 5000.txt") garbled_disk) as (_ & H & _).
    apply (H (utf8_encode (py "hello") ++ [Byte.xff])); reflexivity.
Defined.

(** C8 as stated fails twice.  A file that opens but is not valid UTF-8
    makes [read_file] raise an error that is not an [IOError], so it
    neither raises [IOError] nor returns.  And on a file with Windows or
    old Macintosh line ends the entries returned do not keep the
    terminators: for the lines ["a\r\n"] and ["b\r"] they are ["a\n"]
    and ["b\n"]. *)
Lemma C8_counterexample :
  (files garbled_disk (py "Oxford 5000.txt") <> None /\
   fst (read_file (py "Oxford 5000.txt") garbled_disk) <> Raise IOError /\
   forall ls, fst (read_file (py "Oxford 5000.txt") garbled_disk) <> Ok ls) /\
  (let content := py "a" ++ [CR; LF] ++ py "b" ++ [CR] ++ py "c" in
   let w := example_disk content in
   fst (read_file (py "Oxford 5000.txt") w)
   = Ok [py "a" ++ [LF]; py "b" ++ [LF]; py "c"] /\
   nth 0 [py "a" ++ [LF]; py "b" ++ [LF]; py "c"] [] <> py "a" ++ [CR; LF] /\
   nth 1 [py "a" ++ [LF]; py "b" ++ [LF]; py "c"] [] <> py "b" ++ [CR] /\
   List.concat [py "a" ++ [LF]; py "b" ++ [LF]; py "c"] <> content).
Proof.
  split.
  - split; [vm_compute; discriminate|].
    split; [vm_compute; discriminate|].
    intros ls. vm_compute. discriminate.
  - cbv zeta. split; [reflexivity|]. repeat split; vm_compute; discriminate.
Qed.

(** ** Where the two front ends differ *)

Lemma cons_neq_self {A} (x : A) (l : list A) : x :: l <> l.
Proof.
  intros H. apply (f_equal (@List.length A)) in H. simpl in H. lia.
Qed.

(** C9.  When the current word is itself ["finish practice"] and that
    text is entered, the window tests the word first: it counts a correct
    answer, stays open, prints no farewell and, when nothing raises,
    moves on to a freshly drawn word.  The terminal tests the exit
    command first: it prints the farewell with the counter as it was and
    exits. *)
Theorem C9_exit_command_as_word :
  (forall o w,
      Gui.cur_word o = finish_practice ->
      let r := Gui.press_return finish_practice (o, w) in
      let o' := fst (snd r) in
      let w' := snd (snd r) in
      Gui.succ_cnt o' = Gui.succ_cnt o + 1 /\
      Gui.closed o' = Gui.closed o /\
      stdout w' = stdout w /\
      (forall doc,
          Gui.words o <> [] ->
          clock w (ticks w) <> Gui.start_time o ->
          web w (requests w) (translation_url (pick (Gui.words o) w)) = Some doc ->
          fst r = Ok tt /\
          Gui.cur_word o' = pick (Gui.words o) w /\
          draws w' = S (draws w))) /\
  (forall l w doc rest,
      Terminal.rand_word l = finish_practice ->
      web w (requests w) (translation_url finish_practice) = Some doc ->
      stdin w = finish_practice :: rest ->
      let r := Terminal.iteration (l, w) in
      let l' := fst (snd r) in
      let w' := snd (snd r) in
      fst r = Raise SystemExit /\
      Terminal.succ_cnt l' = Terminal.succ_cnt l /\
      Terminal.rand_word l' = finish_practice /\
      draws w' = draws w /\
      stdout w' = stdout w ++ [shown finish_practice doc;
                               {| line_text := Lit (farewell (Terminal.succ_cnt l));
                                  line_color := Some (py "yellow") |}]).
Proof.
  split.
  - intros o w Hcur. cbv zeta.
    rewrite press_return_correct by (rewrite Hcur; reflexivity). cbv zeta.
    rewrite fetch_word_run. simpl.
    destruct (Z.eqb_spec (clock w (ticks w) - Gui.start_time o) 0) as [Z0|NZ].
    { simpl. split; [reflexivity|]. split; [reflexivity|].
      split; [reflexivity|]. intros page _ Hclock. lia. }
    destruct (Gui.words o) as [|x ws] eqn:Ews.
    { simpl. split; [reflexivity|]. split; [reflexivity|].
      split; [reflexivity|]. intros page Hne. congruence. }
    cbv zeta.
    change (pick (x :: ws) (tick w)) with (pick (x :: ws) w).
    destruct (web w (requests w) (translation_url (pick (x :: ws) w)))
      as [page|] eqn:Hweb; simpl.
    + split; [reflexivity|]. split; [reflexivity|]. split; [reflexivity|].
      intros _ _ _ _. split; [reflexivity|]. split; reflexivity.
    + split; [reflexivity|]. split; [reflexivity|]. split; [reflexivity|].
      intros page _ _ H. discriminate.
  - intros l w doc rest Hcur Hweb Hin. cbv zeta.
    rewrite (iteration_finish l w doc rest) by (rewrite ?Hcur; assumption).
    simpl. rewrite <- app_assoc, Hcur. repeat split.
Qed.

(** C9 at a concrete session whose one-line word list holds the exit
    command. *)
Lemma C9_exit_command_as_word_witness :
  (let r := Gui.press_return finish_practice
              (example_window finish_practice, example_world []) in
   fst r = Ok tt /\
   Gui.succ_cnt (fst (snd r)) = 4 /\
   Gui.closed (fst (snd r)) = false /\
   Gui.cur_word (fst (snd r)) = finish_practice) /\
  (let r := Terminal.iteration
              (example_locals finish_practice, example_world [finish_practice]) in
   fst r = Raise SystemExit /\
   Terminal.succ_cnt (fst (snd r)) = 3).
Proof.
  destruct C9_exit_command_as_word as (G & T). split.
  - destruct (G (example_window finish_practice) (example_world []) eq_refl)
      as (N & C & _ & F).
    destruct (F (page (py "translation"))) as (R & W & _).
    + discriminate.
    + vm_compute. discriminate.
    + reflexivity.
    + repeat split; assumption.
  - destruct (T (example_locals finish_practice) (example_world [finish_practice])
                (page (py "translation")) [] eq_refl eq_refl eq_refl)
      as (R & N & _).
    split; assumption.
Defined.

Lemma lstrip_split (s : str) : exists pre, s = pre ++ lstrip s /\ blank pre.
Proof.
  unfold blank. induction s as [|c r (pre & E & B)]; simpl.
  - exists []. split; reflexivity.
  - destruct (isspace c) eqn:Hc.
    + exists (c :: pre). simpl. rewrite Hc, B. split; [congruence | reflexivity].
    + exists []. split; reflexivity.
Qed.

Lemma rstrip_split (s : str) : exists post, s = rstrip s ++ post /\ blank post.
Proof.
  unfold rstrip. destruct (lstrip_split (rev s)) as (pre & E & B).
  exists (rev pre). split.
  - rewrite <- rev_app_distr, <- E. symmetry. apply rev_involutive.
  - unfold blank in *. rewrite forallb_forall in *.
    intros c Hc. apply B. now apply in_rev.
Qed.

Lemma lstrip_blank_app (pre s : str) : blank pre -> lstrip (pre ++ s) = lstrip s.
Proof. intros B. rewrite lstrip_app, (lstrip_blank pre B). reflexivity. Qed.

Lemma rstrip_app_blank (s post : str) : blank post -> rstrip (s ++ post) = rstrip s.
Proof.
  intros B. unfold rstrip. rewrite rev_app_distr. f_equal.
  apply lstrip_blank_app. unfold blank in *. rewrite forallb_forall in *.
  intros c Hc. apply B. now apply in_rev.
Qed.

Lemma clean_ends_lstrip (s : str) : clean_ends s -> lstrip s = s.
Proof.
  destruct s as [|c r]; [reflexivity|]. intros [H _]. simpl. now rewrite H.
Qed.

Lemma clean_ends_rstrip (s : str) : clean_ends s -> rstrip s = s.
Proof.
  destruct s as [|c r]; [reflexivity|]. intros [_ H].
  destruct (@exists_last _ (c :: r)) as (front & a & E); [discriminate|].
  rewrite E in *. rewrite last_last in H.
  unfold rstrip. rewrite rev_app_distr. simpl. rewrite H. simpl.
  now rewrite rev_involutive.
Qed.

(** What [strip] does, said without it: of a string with clean ends
    wrapped in whitespace it gives back the string. *)
Lemma strip_around (pre word post : str) :
  blank pre -> blank post -> clean_ends word ->
  strip (pre ++ word ++ post) = word.
Proof.
  intros Bpre Bpost C. unfold strip. rewrite lstrip_blank_app by exact Bpre.
  destruct word as [|c r].
  - simpl. now rewrite (lstrip_blank post Bpost).
  - rewrite lstrip_app, (clean_ends_lstrip _ C).
    rewrite rstrip_app_blank by exact Bpost. now apply clean_ends_rstrip.
Qed.

(** Every string is its stripped form wrapped in whitespace. *)
Lemma strip_split (s : str) :
  exists pre post, s = pre ++ strip s ++ post /\ blank pre /\ blank post.
Proof.
  destruct (lstrip_split s) as (pre & E & Bpre).
  destruct (rstrip_split (lstrip s)) as (post & F & Bpost).
  exists pre, post. unfold strip. split; [|now split].
  now rewrite <- F.
Qed.

(** C10.  The window strips the line before it compares: a line and the
    stripped line are one and the same event for it.  The terminal
    compares the line as read.  So for every current word there is a
    line that differs from it by surrounding whitespace only, the word
    after one blank, which the window counts as correct and the terminal
    as wrong; and so does every line made of the word with whitespace
    before it, after it or both.  These lines, and the word itself, are
    all that the window counts as correct, while the terminal counts the
    word itself only. *)
Theorem C10_whitespace_not_equivalent :
  (forall typed s, Gui.press_return typed s = Gui.press_return (strip typed) s) /\
  (forall word o wg l wt doc rest,
      trimmed word ->
      Gui.cur_word o = word ->
      Terminal.rand_word l = word ->
      web wt (requests wt) (translation_url word) = Some doc ->
      let typed := 32%N :: word in
      typed <> word /\ strip typed = word /\
      Gui.succ_cnt (fst (snd (Gui.press_return typed (o, wg))))
      = Gui.succ_cnt o + 1 /\
      (stdin wt = typed :: rest ->
       let r := Terminal.iteration (l, wt) in
       fst r = Ok tt /\
       Terminal.succ_cnt (fst (snd r)) = Terminal.succ_cnt l /\
       Terminal.rand_word (fst (snd r)) = word /\
       stdout (snd (snd r))
       = stdout wt ++ [shown word doc;
                       {| line_text := Lit (py "wrong!");
                          line_color := Some (py "red") |}])) /\
  (forall pre post word o wg l wt doc rest,
      blank pre -> blank post -> pre ++ post <> [] ->
      clean_ends word ->
      Gui.cur_word o = word ->
      Terminal.rand_word l = word ->
      web wt (requests wt) (translation_url word) = Some doc ->
      let typed := pre ++ word ++ post in
      typed <> word /\
      Gui.succ_cnt (fst (snd (Gui.press_return typed (o, wg))))
      = Gui.succ_cnt o + 1 /\
      (stdin wt = typed :: rest ->
       let r := Terminal.iteration (l, wt) in
       fst r = Ok tt /\
       Terminal.succ_cnt (fst (snd r)) = Terminal.succ_cnt l /\
       Terminal.rand_word (fst (snd r)) = word /\
       stdout (snd (snd r))
       = stdout wt ++ [shown word doc;
                       {| line_text := Lit (py "wrong!");
                          line_color := Some (py "red") |}])) /\
  (forall typed o w,
      clean_ends (Gui.cur_word o) ->
      (Gui.succ_cnt (fst (snd (Gui.press_return typed (o, w))))
       = Gui.succ_cnt o + 1
       <-> exists pre post,
             blank pre /\ blank post /\ typed = pre ++ Gui.cur_word o ++ post)) /\
  (forall l w,
      Terminal.succ_cnt (fst (snd (Terminal.iteration (l, w))))
      = Terminal.succ_cnt l + 1 ->
      hd_error (stdin w) = Some (Terminal.rand_word l)).
Proof.
  assert (W : forall typed word l wt doc rest,
             typed <> word -> typed <> finish_practice ->
             Terminal.rand_word l = word ->
             web wt (requests wt) (translation_url word) = Some doc ->
             stdin wt = typed :: rest ->
             let r := Terminal.iteration (l, wt) in
             fst r = Ok tt /\
             Terminal.succ_cnt (fst (snd r)) = Terminal.succ_cnt l /\
             Terminal.rand_word (fst (snd r)) = word /\
             stdout (snd (snd r))
             = stdout wt ++ [shown word doc;
                             {| line_text := Lit (py "wrong!");
                                line_color := Some (py "red") |}]).
  { intros typed word l wt doc rest N1 N2 Hrand Hweb Hin. cbv zeta.
    rewrite (iteration_wrong l wt doc typed rest);
      rewrite ?Hrand; try assumption.
    simpl. rewrite <- app_assoc, Hrand. repeat split. }
  refine (conj press_return_strip (conj _ (conj _ (conj _ _)))).
  - intros word o wg l wt doc rest Htrim Hcur Hrand Hweb. cbv zeta.
    assert (S : strip (32%N :: word) = word)
      by (rewrite strip_blank_cons; exact Htrim).
    split; [apply cons_neq_self|]. split; [exact S|]. split.
    + apply press_return_counts. congruence.
    + intros Hin. apply (W (32%N :: word) word l wt doc rest); try assumption.
      * apply cons_neq_self.
      * intros H; vm_compute in H; discriminate.
  - intros pre post word o wg l wt doc rest Bpre Bpost Hne C Hcur Hrand Hweb.
    cbv zeta.
    assert (S : strip (pre ++ word ++ post) = word) by now apply strip_around.
    assert (N : pre ++ word ++ post <> word).
    { intros E. apply (f_equal (@List.length char)) in E.
      rewrite !length_app in E.
      destruct pre, post; simpl in *; try lia. congruence. }
    split; [exact N|]. split.
    + apply press_return_counts. congruence.
    + intros Hin. apply (W (pre ++ word ++ post) word l wt doc rest);
        try assumption.
      intros E. apply N. rewrite <- S at 2. rewrite E. reflexivity.
  - intros typed o w C. split.
    + intros H.
      destruct (press_return_frame typed o w) as (_ & [F|[F _]] & _); [lia|].
      destruct (strip_split typed) as (pre & post & E & Bpre & Bpost).
      exists pre, post. rewrite <- F. auto.
    + intros (pre & post & Bpre & Bpost & ->).
      apply press_return_counts. now apply strip_around.
  - intros l w H.
    destruct (iteration_frame l w) as (_ & [F|[F _]] & _); [lia | exact F].
Qed.

(** C10 at a concrete session: the word is ["hello"]; the lines typed
    are [" hello"], ["hello "] and the word between a tab and two
    blanks. *)
Lemma C10_whitespace_not_equivalent_witness :
  (Gui.succ_cnt
     (fst (snd (Gui.press_return (py " hello")
                  (example_window (py "hello"), example_world [])))) = 4 /\
   (let r := Terminal.iteration
               (example_locals (py "hello"), example_world [py " hello"]) in
    fst r = Ok tt /\ Terminal.succ_cnt (fst (snd r)) = 3)) /\
  (Gui.succ_cnt
     (fst (snd (Gui.press_return (py "hello ")
                  (example_window (py "hello"), example_world [])))) = 4 /\
   (let r := Terminal.iteration
               (example_locals (py "hello"), example_world [py "hello "]) in
    fst r = Ok tt /\ Terminal.succ_cnt (fst (snd r)) = 3)) /\
  Gui.succ_cnt
    (fst (snd (Gui.press_return ([9%N] ++ py "hello" ++ py "  ")
                 (example_window (py "hello"), example_world [])))) = 4 /\
  hd_error (stdin (example_world [py "hello"])) = Some (py "hello").
Proof.
  destruct C10_whitespace_not_equivalent as (_ & H & A & I & T).
  refine (conj _ (conj _ (conj _ _))).
  - destruct (H (py "hello") (example_window (py "hello")) (example_world [])
                (example_locals (py "hello")) (example_world [py " hello"])
                (page (py "translation")) [] eq_refl eq_refl eq_refl eq_refl)
      as (_ & _ & G & K).
    split; [exact G|].
    destruct (K eq_refl) as (R & N & _). split; assumption.
  - destruct (A (py "") (py " ") (py "hello")
                (example_window (py "hello")) (example_world [])
                (example_locals (py "hello")) (example_world [py "hello "])
                (page (py "translation")) [])
      as (_ & G & K); try reflexivity.
    + discriminate.
    + split; reflexivity.
    + split; [exact G|].
      destruct (K eq_refl) as (R & N & _). split; assumption.
  - apply (I ([9%N] ++ py "hello" ++ py "  ")
             (example_window (py "hello")) (example_world [])).
    + split; reflexivity.
    + exists [9%N], (py "  "). repeat split.
  - apply (T (example_locals (py "hello")) (example_world [py "hello"])).
    reflexivity.
Defined.

(** * Further properties *)

(** ** What [strip] leaves of a line *)

Lemma rstrip_snoc_space (s : str) (c : char) :
  isspace c = true -> rstrip (s ++ [c]) = rstrip s.
Proof.
  intros E. unfold rstrip. rewrite rev_app_distr. simpl. now rewrite E.
Qed.

(** Whitespace at the end of a line, its terminator included, does not
    show in the word. *)
Lemma strip_snoc_space (s : str) (c : char) :
  isspace c = true -> strip (s ++ [c]) = strip s.
Proof.
  intros E. unfold strip. rewrite lstrip_app.
  destruct (lstrip s) as [|d r] eqn:L.
  - simpl. rewrite E. reflexivity.
  - now apply rstrip_snoc_space.
Qed.

Lemma strip_incl (s : str) (c : char) : In c (strip s) -> In c s.
Proof.
  intros H. unfold strip in H.
  destruct (lstrip_suffix s) as [pre E].
  destruct (rstrip_prefix (lstrip s)) as [post F].
  rewrite E, F. apply in_or_app. right. apply in_or_app. now left.
Qed.

Lemma strip_clean_ends (s : str) : clean_ends (strip s).
Proof.
  unfold clean_ends. destruct (strip s) as [|c r] eqn:E; [exact I|].
  split.
  - pose proof (lstrip_rstrip_lstrip s) as F. fold (strip s) in F.
    rewrite E in F.
    destruct (lstrip_head (c :: r)) as [H|(c' & r' & H & Hc)];
      rewrite F in H; [discriminate|].
    now injection H as -> _.
  - unfold strip, rstrip in E.
    destruct (lstrip_head (rev (lstrip s))) as [H|(c' & r' & H & Hc)];
      rewrite H in E; [discriminate|].
    simpl in E. rewrite <- E. now rewrite last_last.
Qed.

(** A line holds no word exactly when it is made of whitespace only. *)
Lemma strip_nil_iff (s : str) : strip s = [] <-> forallb isspace s = true.
Proof.
  split.
  - intros E. unfold strip, rstrip in E.
    assert (L : lstrip s = []).
    { destruct (lstrip_head s) as [H|(c & r & H & Hc)]; [exact H|].
      exfalso. rewrite H in E.
      apply (f_equal (@rev char)) in E. rewrite rev_involutive in E.
      simpl in E.
      destruct (lstrip_suffix (rev r ++ [c])) as [pre P].
      rewrite E, app_nil_r in P.
      assert (A : forallb isspace pre = true).
      { clear - E P. rewrite P in E. clear P.
        induction pre as [|x pre IH]; [reflexivity|].
        simpl in *. destruct (isspace x); [now apply IH | discriminate]. }
      rewrite <- P, forallb_app in A. simpl in A. rewrite Hc in A.
      destruct (forallb isspace (rev r)); discriminate. }
    clear E. induction s as [|c r IH]; [reflexivity|].
    simpl in *. destruct (isspace c); [now apply IH | discriminate].
  - intros A. unfold strip. now rewrite (lstrip_blank s A).
Qed.

(** ** The entries of a loaded file *)

Lemma Lines_entry (t : str) (ls : list str) :
  Lines t ls ->
  forall e, In e ls ->
    exists body, ~ In LF body /\ (e = body ++ [LF] \/ e = body) /\
                 (forall c, In c e -> In c t).
Proof.
  induction 1 as [|body Hne Hno|body t ls Hno _ IH]; intros e He.
  - destruct He.
  - destruct He as [<-|[]]. exists body. auto.
  - destruct He as [<-|He].
    + exists body. split; [exact Hno|]. split; [now left|].
      intros c Hc. apply in_app_or in Hc as [Hc|[<-|[]]].
      * apply in_or_app. now left.
      * apply in_or_app. right. now left.
    + destruct (IH e He) as (b & Hb & Hs & Hi).
      exists b. split; [exact Hb|]. split; [exact Hs|].
      intros c Hc. apply in_or_app. right. right. now apply Hi.
Qed.

Lemma readlines_length (s : str) :
  List.length (readlines s)
  = (count_occ N.eq_dec s LF + if unterminated s then 1 else 0)%nat.
Proof.
  induction s as [|c r IH]; [reflexivity|].
  cbn [readlines count_occ unterminated].
  destruct (N.eqb_spec c LF) as [->|Hc].
  - destruct (N.eq_dec LF LF) as [_|N]; [|congruence].
    cbn [List.length]. rewrite IH.
    destruct r as [|d r']; [reflexivity|]. simpl. lia.
  - destruct (N.eq_dec c LF) as [E|_]; [congruence|].
    destruct r as [|d r'].
    + simpl. reflexivity.
    + destruct (readlines (d :: r')) as [|l ls] eqn:R.
      * apply readlines_nil_inv in R. discriminate.
      * cbn [List.length] in *. exact IH.
Qed.

(** X1.  The number of entries that [read_file] returns is the number of line
    terminators in the text read, plus one when the last line has none.
    No entry is empty. *)
Theorem X1_read_file_entry_count (file content : str) (w : World) :
  file_text w file = Some content ->
  exists ls,
    fst (read_file file w) = Ok ls /\
    List.length ls
    = (count_occ N.eq_dec (universal_newlines content) LF
       + if unterminated (universal_newlines content) then 1 else 0)%nat /\
    Forall (fun e => e <> []) ls /\
    (content = [] -> ls = []).
Proof.
  intros E. unfold read_file. unfold file_text in E.
  destruct (files w file) as [raw|]; [|discriminate]. rewrite E. simpl.
  eexists. split; [reflexivity|]. split; [apply readlines_length|]. split.
  - apply Forall_forall. intros e He ->.
    destruct (Lines_entry _ _ (readlines_Lines (universal_newlines content)) [] He)
      as (body & _ & [H|H] & _).
    + destruct body; discriminate.
    + subst body.
      clear E. revert He.
      generalize (universal_newlines content) as t.
      induction t as [|c r IH]; simpl; [tauto|].
      destruct (c =? LF)%N.
      * intros [H|H]; [discriminate | auto].
      * destruct (readlines r) as [|l ls'] eqn:R; intros [H|H];
          try discriminate; try tauto.
        apply IH. now right.
  - intros ->. reflexivity.
Qed.

(** X1 on a file of three lines, the last without terminator. *)
Lemma X1_read_file_entry_count_witness :
  exists ls,
    fst (read_file (py "Oxford 5000.txt")
           (example_disk (py "a" ++ [CR; LF] ++ py "b" ++ [LF] ++ py "c")))
    = Ok ls /\ List.length ls = 3%nat.
Proof.
  destruct (X1_read_file_entry_count (py "Oxford 5000.txt")
              (py "a" ++ [CR; LF] ++ py "b" ++ [LF] ++ py "c")
              (example_disk (py "a" ++ [CR; LF] ++ py "b" ++ [LF] ++ py "c"))
              eq_refl) as (ls & R & L & _).
  exists ls. split; [exact R | exact L].
Defined.

Lemma session_ok (ws typed : list str) (o : Gui.MyWindow) (w : World) :
  window_ok ws o -> window_ok ws (fst (snd (Gui.session typed (o, w)))).
Proof.
  apply (session_keeps (window_ok ws)). intros t o1 w1. apply press_return_ok.
Qed.

Lemma body_ok (ws : list str) (fuel : nat) (w : World) :
  ws <> [] ->
  frame_ok ws (fst (snd (Terminal.body fuel (Terminal.entry ws, w)))).
Proof.
  intros Hne. rewrite body_run. destruct ws as [|x ws']; [congruence|].
  apply (loop_keeps (frame_ok (x :: ws'))).
  - intros l1 w1. apply iteration_ok.
  - split; [reflexivity|]. apply (pick_in (x :: ws') w). discriminate.
Qed.

Lemma loaded_word_clean (content e : str) :
  In e (word_list (readlines (universal_newlines content))) ->
  ~ In LF e /\ ~ In CR e /\ clean_ends e.
Proof.
  intros H. apply in_map_iff in H as (line & <- & Hl).
  destruct (Lines_entry _ _ (readlines_Lines (universal_newlines content)) line Hl)
    as (body & Hno & Hshape & Hin).
  split; [|split].
  - assert (S : strip line = strip body).
    { destruct Hshape as [->| ->]; [|reflexivity].
      now apply strip_snoc_space. }
    rewrite S. intros H. now apply strip_incl in H.
  - intros H. apply strip_incl, Hin in H.
    now apply universal_newlines_no_CR in H.
  - apply strip_clean_ends.
Qed.

(** ** The words of a loaded file *)

(** X2.  Whatever the file holds, a word that the program presents from it
    has no line terminator in it, neither ["\n"] nor ["\r"], and no
    whitespace at either end: this holds of every trimmed entry of the
    list that [read_file] returns, hence of the word of a window built on
    that list, through any session, and of the word of the terminal loop
    at any time. *)
Theorem X2_loaded_words_clean (file : str) (w : World) (ls : list str) :
  fst (read_file file w) = Ok ls ->
  (forall e, In e (word_list ls) -> ~ In LF e /\ ~ In CR e /\ clean_ends e) /\
  (forall typed o w',
      window_ok ls o ->
      let word := Gui.cur_word (fst (snd (Gui.session typed (o, w')))) in
      ~ In LF word /\ ~ In CR word /\ clean_ends word) /\
  (forall fuel w',
      ls <> [] ->
      let word :=
        Terminal.rand_word (fst (snd (Terminal.body fuel (Terminal.entry ls, w')))) in
      ~ In LF word /\ ~ In CR word /\ clean_ends word).
Proof.
  unfold read_file. destruct (files w file) as [raw|]; [|discriminate].
  destruct (utf8_decode raw) as [content|]; [|discriminate].
  simpl. intros [= <-].
  split; [|split].
  - intros e. apply loaded_word_clean.
  - intros typed o w' Hok. cbv zeta.
    destruct (session_ok _ typed o w' Hok) as (_ & Hin & _).
    now apply (loaded_word_clean content).
  - intros fuel w' Hne. cbv zeta.
    destruct (body_ok _ fuel w' Hne) as (_ & Hin).
    now apply (loaded_word_clean content).
Qed.

(** X2 on a file with Windows line ends and blanks around the words. *)
Lemma X2_loaded_words_clean_witness :
  let content := py " hello " ++ [CR; LF] ++ py "world" in
  let word :=
    Terminal.rand_word
      (fst (snd (Terminal.body 1
                   (Terminal.entry (readlines (universal_newlines content)),
                    example_world [py "hello"])))) in
  ~ In LF word /\ ~ In CR word /\ clean_ends word.
Proof.
  cbv zeta.
  destruct (X2_loaded_words_clean (py "Oxford 5000.txt")
              (example_disk (py " hello " ++ [CR; LF] ++ py "world"))
              _ eq_refl) as (_ & _ & T).
  apply (T 1%nat (example_world [py "hello"])). discriminate.
Defined.

(** ** Blank lines in the word list *)

(** X3.  A line of the word list made of whitespace only gives the empty
    word.  While the empty word is current, an answer made of whitespace
    only (the empty answer among them) is counted as correct in the
    window, and the empty line is in the terminal. *)
Theorem X3_blank_line_is_empty_word :
  (forall ws o,
      window_ok ws o ->
      forallb (forallb isspace) ws = true ->
      Gui.cur_word o = py "") /\
  (forall ws l,
      frame_ok ws l ->
      forallb (forallb isspace) ws = true ->
      Terminal.rand_word l = py "") /\
  (forall typed o w,
      Gui.cur_word o = py "" ->
      forallb isspace typed = true ->
      Gui.succ_cnt (fst (snd (Gui.press_return typed (o, w))))
      = Gui.succ_cnt o + 1) /\
  (forall l w doc rest,
      Terminal.rand_word l = py "" ->
      web w (requests w) (translation_url (py "")) = Some doc ->
      stdin w = py "" :: rest ->
      clock w (S (ticks w)) <> clock w (ticks w) ->
      Terminal.succ_cnt (fst (snd (Terminal.iteration (l, w))))
      = Terminal.succ_cnt l + 1).
Proof.
  assert (B : forall ws e,
             forallb (forallb isspace) ws = true ->
             In e (word_list ws) -> e = py "").
  { intros ws e A H. apply in_map_iff in H as (line & <- & Hl).
    apply strip_nil_iff.
    rewrite forallb_forall in A. now apply A. }
  refine (conj _ (conj _ (conj _ _))).
  - intros ws o (_ & Hin & _) A. now apply (B ws).
  - intros ws l (_ & Hin) A. now apply (B ws).
  - intros typed o w Hcur A. apply press_return_counts.
    rewrite Hcur. now apply strip_nil_iff.
  - intros l w doc rest Hcur Hweb Hin Hclock.
    rewrite (iteration_correct l w doc rest).
    + cbv zeta.
      destruct (Z.eqb_spec (clock w (S (ticks w)) - clock w (ticks w)) 0);
        [lia|].
      destruct (Terminal.words l); reflexivity.
    + now rewrite Hcur.
    + now rewrite Hcur.
    + rewrite Hcur. discriminate.
Qed.

(** X3 on a word list whose only line is a blank and a tab. *)
Lemma X3_blank_line_is_empty_word_witness :
  Gui.cur_word (opened [[32%N; 9%N; LF]] (example_world [])) = py "" /\
  Gui.succ_cnt
    (fst (snd (Gui.press_return (py "  ")
                 (opened [[32%N; 9%N; LF]] (example_world []),
                  example_world [])))) = 1.
Proof.
  destruct X3_blank_line_is_empty_word as (G & _ & P & _).
  assert (W : window_ok [[32%N; 9%N; LF]]
                (opened [[32%N; 9%N; LF]] (example_world []))).
  { split; [reflexivity|]. split.
    - left. reflexivity.
    - exists (py "translation"). reflexivity. }
  split.
  - apply (G [[32%N; 9%N; LF]] _ W). reflexivity.
  - apply (P (py "  ") (opened [[32%N; 9%N; LF]] (example_world []))
             (example_world [])); reflexivity.
Defined.

(** ** Requests *)

Lemma iteration_requests (l : Terminal.Locals) (w : World) :
  requests (snd (snd (Terminal.iteration (l, w)))) = S (requests w).
Proof.
  destruct (web w (requests w) (translation_url (Terminal.rand_word l)))
    as [doc|] eqn:E.
  2:{ rewrite iteration_no_page by assumption. reflexivity. }
  destruct (stdin w) as [|input_word rest] eqn:I.
  { rewrite (iteration_eof _ _ doc) by assumption. reflexivity. }
  destruct (str_eqb_spec input_word finish_practice) as [->|N1].
  { rewrite (iteration_finish _ _ doc rest) by assumption. reflexivity. }
  destruct (str_eqb_spec input_word (Terminal.rand_word l)) as [->|N2].
  - rewrite (iteration_correct _ _ doc rest) by assumption. cbv zeta.
    destruct (_ =? 0); [reflexivity|].
    destruct (Terminal.words l); reflexivity.
  - rewrite (iteration_wrong _ _ doc input_word rest) by assumption.
    reflexivity.
Qed.

(** X4.  The terminal asks the dictionary once in every iteration, whatever
    is typed and however the iteration ends, so a word answered wrongly
    is looked up again before the next attempt.  The window asks only
    when it moves to a new word: never on a wrong answer nor on the exit
    command, at most once on a correct one. *)
Theorem X4_requests_per_answer :
  (forall l w,
      requests (snd (snd (Terminal.iteration (l, w)))) = S (requests w)) /\
  (forall fuel l w,
      fst (Terminal.loop fuel (l, w)) = Ok tt ->
      requests (snd (snd (Terminal.loop fuel (l, w)))) = (fuel + requests w)%nat) /\
  (forall typed o w,
      strip typed <> Gui.cur_word o ->
      requests (snd (snd (Gui.press_return typed (o, w)))) = requests w) /\
  (forall typed o w,
      strip typed = Gui.cur_word o ->
      let w' := snd (snd (Gui.press_return typed (o, w))) in
      (fst (Gui.press_return typed (o, w)) = Ok tt -> requests w' = S (requests w)) /\
      (requests w' = requests w \/ requests w' = S (requests w))).
Proof.
  refine (conj iteration_requests (conj _ (conj _ _))).
  - induction fuel as [|fuel IH]; intros l w; [reflexivity|].
    rewrite loop_S. pose proof (iteration_requests l w) as R.
    destruct (Terminal.iteration (l, w)) as [[[]|e] [l' w']]; simpl in *.
    + intros H. rewrite (IH l' w' H), R. lia.
    + discriminate.
  - intros typed o w N.
    destruct (str_eqb_spec (strip typed) finish_practice) as [E|N2].
    + rewrite press_return_finish by assumption. reflexivity.
    + rewrite press_return_wrong by assumption. reflexivity.
  - intros typed o w E. cbv zeta.
    rewrite press_return_correct by assumption. cbv zeta.
    destruct (_ =? 0); [simpl; split; [discriminate | now left]|].
    rewrite fetch_word_run. simpl.
    destruct (Gui.words o); [simpl; split; [discriminate | now left]|].
    cbv zeta. destruct (web _ _ _); simpl; split; auto; discriminate.
Qed.

(** X4 on three wrong answers in the terminal and one in the window. *)
Lemma X4_requests_per_answer_witness :
  requests
    (snd (snd (Terminal.loop 3
                 (example_locals (py "hello"),
                  example_world [py "hullo"; py "helo"; py "hallo"])))) = 3%nat /\
  requests
    (snd (snd (Gui.press_return (py "hullo")
                 (example_window (py "hello"), example_world [])))) = 0%nat.
Proof.
  destruct X4_requests_per_answer as (_ & L & G & _). split.
  - apply (L 3%nat (example_locals (py "hello"))
             (example_world [py "hullo"; py "helo"; py "hallo"])).
    reflexivity.
  - apply (G (py "hullo") (example_window (py "hello")) (example_world [])).
    intros H; vm_compute in H; discriminate.
Defined.

(** ** When the division fails *)

(** X5.  A correct answer given at the very clock reading at which the word
    was shown makes the speed a division by zero, which nothing catches.
    The window has then already counted the answer and turned the label
    green, but keeps the old word, the old question and the old result
    text.  The terminal has read the line but not counted it, and keeps
    the word. *)
Theorem X5_zero_elapsed_time :
  (forall typed o w,
      strip typed = Gui.cur_word o ->
      clock w (ticks w) = Gui.start_time o ->
      let r := Gui.press_return typed (o, w) in
      let o' := fst (snd r) in
      fst r = Raise ZeroDivisionError /\
      Gui.succ_cnt o' = Gui.succ_cnt o + 1 /\
      Gui.cur_word o' = Gui.cur_word o /\
      Gui.question o' = Gui.question o /\
      Gui.result_text o' = Gui.result_text o /\
      Gui.result_style o' = py "color: green" /\
      draws (snd (snd r)) = draws w) /\
  (forall l w doc rest,
      web w (requests w) (translation_url (Terminal.rand_word l)) = Some doc ->
      stdin w = Terminal.rand_word l :: rest ->
      Terminal.rand_word l <> finish_practice ->
      clock w (S (ticks w)) = clock w (ticks w) ->
      let r := Terminal.iteration (l, w) in
      fst r = Raise ZeroDivisionError /\
      Terminal.succ_cnt (fst (snd r)) = Terminal.succ_cnt l /\
      Terminal.rand_word (fst (snd r)) = Terminal.rand_word l /\
      stdin (snd (snd r)) = rest /\
      stdout (snd (snd r)) = stdout w ++ [shown (Terminal.rand_word l) doc]).
Proof.
  split.
  - intros typed o w E C. cbv zeta.
    rewrite press_return_correct by assumption. cbv zeta.
    rewrite C, Z.sub_diag. simpl. repeat split.
  - intros l w doc rest D I N C. cbv zeta.
    rewrite (iteration_correct l w doc rest) by assumption. cbv zeta.
    rewrite C, Z.sub_diag. simpl. repeat split.
Qed.

(** X5 on a clock that stands still at 50, the start time of the
    window. *)
Lemma X5_zero_elapsed_time_witness :
  let still := {| clock := fun _ => 50; rng := fun n => n;
                  web := fun _ _ => Some (page (py "translation"));
                  files := fun _ => None;
                  ticks := 0; draws := 0; requests := 0;
                  stdin := [py "hello"]; stdout := [] |} in
  fst (Gui.press_return (py "hello") (example_window (py "hello"), still))
  = Raise ZeroDivisionError /\
  fst (Terminal.iteration (example_locals (py "hello"), still))
  = Raise ZeroDivisionError.
Proof.
  cbv zeta. destruct X5_zero_elapsed_time as (G & T). split.
  - apply G; reflexivity.
  - apply (T _ _ (page (py "translation")) []); try reflexivity.
    intros H; vm_compute in H; discriminate.
Defined.

(** ** When the network fails *)

(** X6.  A request that fails is not caught anywhere.  In the terminal the
    iteration stops before the word is shown and before anything is read:
    frame, input and output are as they were.  In the window a correct
    answer is counted and its speed shown, a word is drawn, and then the
    failure leaves the old word, the old question and the old start time
    in place.  A window whose first request fails is never built. *)
Theorem X6_network_failure :
  (forall l w,
      web w (requests w) (translation_url (Terminal.rand_word l)) = None ->
      let r := Terminal.iteration (l, w) in
      fst r = Raise RequestException /\
      fst (snd r) = l /\
      stdin (snd (snd r)) = stdin w /\
      stdout (snd (snd r)) = stdout w /\
      ticks (snd (snd r)) = ticks w) /\
  (forall typed o w,
      strip typed = Gui.cur_word o ->
      clock w (ticks w) <> Gui.start_time o ->
      Gui.words o <> [] ->
      web w (requests w) (translation_url (pick (Gui.words o) w)) = None ->
      let r := Gui.press_return typed (o, w) in
      let o' := fst (snd r) in
      fst r = Raise RequestException /\
      Gui.succ_cnt o' = Gui.succ_cnt o + 1 /\
      Gui.cur_word o' = Gui.cur_word o /\
      Gui.question o' = Gui.question o /\
      Gui.start_time o' = Gui.start_time o /\
      Gui.result_text o'
      = Speed (List.length (Gui.cur_word o)) (clock w (ticks w)) (Gui.start_time o) /\
      draws (snd (snd r)) = S (draws w)) /\
  (forall ws w,
      ws <> [] ->
      web w (requests w) (translation_url (pick ws w)) = None ->
      fst (Gui.init ws w) = Raise RequestException).
Proof.
  refine (conj _ (conj _ _)).
  - intros l w E. cbv zeta. rewrite iteration_no_page by assumption.
    simpl. repeat split.
  - intros typed o w E C Hne Hweb. cbv zeta.
    rewrite press_return_correct by assumption. cbv zeta.
    destruct (Z.eqb_spec (clock w (ticks w) - Gui.start_time o) 0); [lia|].
    rewrite fetch_word_run. simpl.
    destruct (Gui.words o) as [|x ws] eqn:Ews; [congruence|].
    cbv zeta. change (pick (x :: ws) (tick w)) with (pick (x :: ws) w).
    rewrite Hweb. simpl. repeat split.
  - intros ws w Hne Hweb. rewrite init_run.
    destruct ws as [|x ws]; [congruence|].
    cbv zeta. rewrite Hweb. reflexivity.
Qed.

(** X6 with the network down. *)
Lemma X6_network_failure_witness :
  fst (Terminal.iteration (example_locals (py "hello"), offline_world [py "hello"]))
  = Raise RequestException /\
  Gui.succ_cnt
    (fst (snd (Gui.press_return (py "hello")
                 (example_window (py "hello"), offline_world [])))) = 4 /\
  fst (Gui.init [py "hello" ++ [LF]] (offline_world [])) = Raise RequestException.
Proof.
  destruct X6_network_failure as (T & G & I). split; [|split].
  - apply T. reflexivity.
  - apply (G (py "hello") (example_window (py "hello")) (offline_world [])).
    + reflexivity.
    + vm_compute. discriminate.
    + discriminate.
    + reflexivity.
  - apply I; [discriminate | reflexivity].
Defined.

(** ** What [enter_text] does to the window *)

(** X7.  Whatever is typed and however the call ends, [enter_text] empties
    the input box, leaves the word list alone and reads nothing from the
    keyboard of the terminal.  It closes the window exactly when the
    stripped line is the exit command and not the current word, and that
    is the only case in which it prints: one line, the farewell. *)
Theorem X7_enter_text_effects (typed : str) (o : Gui.MyWindow) (w : World) :
  let r := Gui.press_return typed (o, w) in
  let o' := fst (snd r) in
  let w' := snd (snd r) in
  Gui.inputbox o' = py "" /\
  Gui.words o' = Gui.words o /\
  stdin w' = stdin w /\
  (Gui.closed o' = true <->
   Gui.closed o = true \/
   (strip typed = finish_practice /\ strip typed <> Gui.cur_word o)) /\
  (strip typed = finish_practice /\ strip typed <> Gui.cur_word o ->
   stdout w' = stdout w ++ [{| line_text := Lit (farewell (Gui.succ_cnt o));
                               line_color := None |}]) /\
  (~ (strip typed = finish_practice /\ strip typed <> Gui.cur_word o) ->
   stdout w' = stdout w).
Proof.
  cbv zeta.
  destruct (str_eqb_spec (strip typed) (Gui.cur_word o)) as [E|N1].
  - assert (K : let o' := fst (snd (Gui.press_return typed (o, w))) in
                let w' := snd (snd (Gui.press_return typed (o, w))) in
                Gui.inputbox o' = py "" /\ Gui.words o' = Gui.words o /\
                stdin w' = stdin w /\ Gui.closed o' = Gui.closed o /\
                stdout w' = stdout w).
    { cbv zeta. rewrite press_return_correct by assumption. cbv zeta.
      destruct (_ =? 0); [simpl; auto|].
      rewrite fetch_word_run. simpl.
      destruct (Gui.words o) as [|x ws] eqn:Ews; [simpl; auto|].
      cbv zeta. destruct (web _ _ _); simpl; auto. }
    cbv zeta in K. destruct K as (K1 & K2 & K3 & K4 & K5).
    split; [exact K1|]. split; [exact K2|]. split; [exact K3|].
    rewrite K4. split; [|split].
    + split; [now left | intros [H|[_ H]]; [exact H | contradiction]].
    + intros [_ H]. contradiction.
    + intros _. exact K5.
  - destruct (str_eqb_spec (strip typed) finish_practice) as [E|N2].
    + rewrite press_return_finish by assumption. simpl.
      split; [reflexivity|]. split; [reflexivity|]. split; [reflexivity|].
      split; [|split].
      * split; [now right | reflexivity].
      * reflexivity.
      * intros H. exfalso. apply H. now split.
    + rewrite press_return_wrong by assumption. simpl.
      split; [reflexivity|]. split; [reflexivity|]. split; [reflexivity|].
      split; [|split].
      * split; [now left | intros [H|[H _]]; [exact H | contradiction]].
      * intros [H _]. contradiction.
      * reflexivity.
Qed.

(** X7 on the exit command typed with blanks around it. *)
Lemma X7_enter_text_effects_witness :
  let r := Gui.press_return (py "  finish practice ")
             (example_window (py "hello"), example_world []) in
  Gui.closed (fst (snd r)) = true /\
  stdout (snd (snd r)) = [{| line_text := Lit (py "Practiced 3 words!");
                             line_color := None |}].
Proof.
  cbv zeta.
  destruct (X7_enter_text_effects (py "  finish practice ")
              (example_window (py "hello")) (example_world []))
    as (_ & _ & _ & C & P & _).
  assert (H : strip (py "  finish practice ") = finish_practice /\
              strip (py "  finish practice ")
              <> Gui.cur_word (example_window (py "hello"))).
  { split; [reflexivity|]. intros H; vm_compute in H; discriminate. }
  split.
  - apply C. right. exact H.
  - exact (P H).
Defined.

(** ** The counter and the lines typed *)

Lemma iteration_potential (l : Terminal.Locals) (w : World) :
  let s' := snd (Terminal.iteration (l, w)) in
  Terminal.succ_cnt (fst s') + Z.of_nat (List.length (stdin (snd s')))
  <= Terminal.succ_cnt l + Z.of_nat (List.length (stdin w)).
Proof.
  cbv zeta.
  destruct (web w (requests w) (translation_url (Terminal.rand_word l)))
    as [doc|] eqn:E.
  2:{ rewrite iteration_no_page by assumption. simpl. lia. }
  destruct (stdin w) as [|input_word rest] eqn:I.
  { rewrite (iteration_eof _ _ doc) by assumption. simpl. rewrite I. simpl. lia. }
  destruct (str_eqb_spec input_word finish_practice) as [->|N1].
  { rewrite (iteration_finish _ _ doc rest) by assumption. simpl. lia. }
  destruct (str_eqb_spec input_word (Terminal.rand_word l)) as [->|N2].
  - rewrite (iteration_correct _ _ doc rest) by assumption. cbv zeta.
    destruct (_ =? 0); [simpl; lia|].
    destruct (Terminal.words l); simpl; lia.
  - rewrite (iteration_wrong _ _ doc input_word rest) by assumption.
    simpl. lia.
Qed.

(** X8.  The counter cannot run ahead of the typing: over a session of the
    window it grows by at most the number of lines typed, and in the
    terminal the counter plus the number of lines still unread never
    grows, so every point scored has cost one line of input. *)
Theorem X8_count_bounded_by_lines :
  (forall typed o w,
      Gui.succ_cnt (fst (snd (Gui.session typed (o, w))))
      <= Gui.succ_cnt o + Z.of_nat (List.length typed)) /\
  (forall fuel l w,
      let s' := snd (Terminal.loop fuel (l, w)) in
      Terminal.succ_cnt (fst s') + Z.of_nat (List.length (stdin (snd s')))
      <= Terminal.succ_cnt l + Z.of_nat (List.length (stdin w))).
Proof.
  split.
  - induction typed as [|t rest IH]; intros o w.
    + simpl. lia.
    + rewrite session_cons. destruct (Gui.closed o).
      * simpl. lia.
      * pose proof (press_return_frame t o w) as (_ & F & _).
        destruct (Gui.press_return t (o, w)) as [[[]|e] [o' w']]; simpl in *.
        -- specialize (IH o' w'). destruct F as [F|[_ F]]; lia.
        -- destruct F as [F|[_ F]]; lia.
  - induction fuel as [|fuel IH]; intros l w; cbv zeta.
    + simpl. lia.
    + rewrite loop_S. pose proof (iteration_potential l w) as P.
      cbv zeta in P.
      destruct (Terminal.iteration (l, w)) as [[[]|e] [l' w']]; simpl in *.
      * specialize (IH l' w'). cbv zeta in IH. lia.
      * exact P.
Qed.

(** ** Where the two front ends agree *)

Lemma press_return_correct_keeps (typed : str) (o : Gui.MyWindow) (w : World) :
  strip typed = Gui.cur_word o ->
  Gui.closed (fst (snd (Gui.press_return typed (o, w)))) = Gui.closed o.
Proof.
  intros E. rewrite press_return_correct by assumption. cbv zeta.
  destruct (_ =? 0); [reflexivity|].
  rewrite fetch_word_run. simpl.
  destruct (Gui.words o); [reflexivity|].
  cbv zeta. destruct (web _ _ _); reflexivity.
Qed.

(** X9.  On a line that stripping leaves alone, and with a current word that
    is not the exit command, the window and the terminal give the same
    verdict: the counter moves by the same amount in both, the window
    closes exactly when the terminal exits, and both report the same
    count or both say ["wrong!"].  (The terminal is taken at an
    iteration that reads the line, with the clock having moved.) *)
Theorem X9_front_ends_agree
    (typed word : str) (o : Gui.MyWindow) (wg : World)
    (l : Terminal.Locals) (wt : World) (doc : list Node) (rest : list str) :
  trimmed typed ->
  Gui.cur_word o = word -> Terminal.rand_word l = word ->
  word <> finish_practice ->
  Gui.closed o = false ->
  Gui.succ_cnt o = Terminal.succ_cnt l ->
  web wt (requests wt) (translation_url word) = Some doc ->
  stdin wt = typed :: rest ->
  clock wt (S (ticks wt)) <> clock wt (ticks wt) ->
  let rg := Gui.press_return typed (o, wg) in
  let rt := Terminal.iteration (l, wt) in
  Gui.succ_cnt (fst (snd rg)) = Terminal.succ_cnt (fst (snd rt)) /\
  (Gui.closed (fst (snd rg)) = true <-> fst rt = Raise SystemExit) /\
  (typed = finish_practice ->
   stdout (snd (snd rg))
   = stdout wg ++ [{| line_text := Lit (farewell (Gui.succ_cnt o));
                      line_color := None |}] /\
   stdout (snd (snd rt))
   = stdout wt ++ [shown word doc;
                   {| line_text := Lit (farewell (Gui.succ_cnt o));
                      line_color := Some (py "yellow") |}]) /\
  (typed <> finish_practice -> typed <> word ->
   Gui.result_text (fst (snd rg)) = Lit (py "wrong!") /\
   stdout (snd (snd rt))
   = stdout wt ++ [shown word doc;
                   {| line_text := Lit (py "wrong!");
                      line_color := Some (py "red") |}]).
Proof.
  intros Ht Hg Hl Hne Hopen Hcnt Hweb Hin Hclock. cbv zeta.
  unfold trimmed in Ht.
  destruct (str_eqb_spec typed word) as [->|N1].
  - (* correct in both *)
    rewrite (press_return_counts word o wg) by congruence.
    rewrite (press_return_correct_keeps word o wg) by congruence.
    rewrite (iteration_correct l wt doc rest) by (rewrite ?Hl; assumption).
    cbv zeta. rewrite Hl.
    destruct (Z.eqb_spec (clock wt (S (ticks wt)) - clock wt (ticks wt)) 0);
      [lia|].
    rewrite Hopen.
    destruct (Terminal.words l); simpl;
      (split; [lia|]; split; [split; discriminate|];
       split; [intros; congruence | intros _ N; congruence]).
  - destruct (str_eqb_spec typed finish_practice) as [->|N2].
    + (* exit in both *)
      rewrite press_return_finish by (rewrite ?Ht, ?Hg; congruence).
      rewrite (iteration_finish l wt doc rest) by (rewrite ?Hl; assumption).
      simpl. rewrite <- app_assoc, Hl, Hcnt.
      split; [reflexivity|]. split; [split; reflexivity|].
      split; [|intros N; congruence].
      intros _. split; reflexivity.
    + (* wrong in both *)
      rewrite press_return_wrong by (rewrite ?Ht, ?Hg; congruence).
      rewrite (iteration_wrong l wt doc typed rest)
        by (rewrite ?Hl; assumption).
      simpl. rewrite <- app_assoc, Hl, Hopen.
      split; [exact Hcnt|]. split; [split; discriminate|].
      split; [intros E; contradiction|].
      intros _ _. split; reflexivity.
Qed.

(** X9 on the word ["hello"] answered exactly. *)
Lemma X9_front_ends_agree_witness :
  Gui.succ_cnt
    (fst (snd (Gui.press_return (py "hello")
                 (example_window (py "hello"), example_world []))))
  = Terminal.succ_cnt
      (fst (snd (Terminal.iteration
                   (example_locals (py "hello"), example_world [py "hello"])))).
Proof.
  apply (X9_front_ends_agree (py "hello") (py "hello")
           (example_window (py "hello")) (example_world [])
           (example_locals (py "hello")) (example_world [py "hello"])
           (page (py "translation")) []); try reflexivity.
  - intros H; vm_compute in H; discriminate.
  - vm_compute. discriminate.
Defined.

(** ** How the terminal session ends *)

Lemma loop_exit_only_on_command (fuel : nat) :
  forall l w,
    fst (Terminal.loop fuel (l, w)) = Raise SystemExit ->
    In finish_practice (stdin w).
Proof.
  induction fuel as [|fuel IH]; intros l w; [discriminate|].
  rewrite loop_S.
  destruct (web w (requests w) (translation_url (Terminal.rand_word l)))
    as [doc|] eqn:E.
  2:{ rewrite iteration_no_page by assumption. discriminate. }
  destruct (stdin w) as [|input_word rest] eqn:I.
  { rewrite (iteration_eof _ _ doc) by assumption. discriminate. }
  destruct (str_eqb_spec input_word finish_practice) as [->|N1]; [now left|].
  intros H. right. revert H.
  destruct (str_eqb_spec input_word (Terminal.rand_word l)) as [->|N2].
  - rewrite (iteration_correct _ _ doc rest) by assumption. cbv zeta.
    destruct (_ =? 0); [discriminate|].
    destruct (Terminal.words l); [discriminate|].
    intros H. apply IH in H. exact H.
  - rewrite (iteration_wrong _ _ doc input_word rest) by assumption.
    intros H. apply IH in H. exact H.
Qed.

Lemma loop_reliable (fuel : nat) :
  forall l w,
    reliable w ->
    Terminal.words l <> [] ->
    (List.length (stdin w) < fuel)%nat ->
    (In finish_practice (stdin w) ->
     fst (Terminal.loop fuel (l, w)) = Raise SystemExit) /\
    (~ In finish_practice (stdin w) ->
     fst (Terminal.loop fuel (l, w)) = Raise EOFError).
Proof.
  induction fuel as [|fuel IH]; intros l w R Hne Hlen; [lia|].
  rewrite loop_S. pose proof R as [Rweb Rclock].
  destruct (web w (requests w) (translation_url (Terminal.rand_word l)))
    as [doc|] eqn:E; [|now apply Rweb in E].
  destruct (stdin w) as [|input_word rest] eqn:I.
  { rewrite (iteration_eof _ _ doc) by assumption. split; [intros []|reflexivity]. }
  destruct (str_eqb_spec input_word finish_practice) as [->|N1].
  { rewrite (iteration_finish _ _ doc rest) by assumption.
    split; [reflexivity|]. intros H. exfalso. apply H. now left. }
  assert (Step : forall l1 w1,
             reliable w1 -> Terminal.words l1 <> [] -> stdin w1 = rest ->
             (In finish_practice (input_word :: rest) ->
              fst (Terminal.loop fuel (l1, w1)) = Raise SystemExit) /\
             (~ In finish_practice (input_word :: rest) ->
              fst (Terminal.loop fuel (l1, w1)) = Raise EOFError)).
  { intros l1 w1 R1 Hne1 I1.
    destruct (IH l1 w1 R1 Hne1) as [A B].
    - rewrite I1. simpl in Hlen. lia.
    - rewrite I1 in A, B. split.
      + intros [H|H]; [congruence | now apply A].
      + intros H. apply B. intros H'. apply H. now right. }
  destruct (str_eqb_spec input_word (Terminal.rand_word l)) as [->|N2].
  - rewrite (iteration_correct _ _ doc rest) by assumption. cbv zeta.
    destruct (Z.eqb_spec (clock w (S (ticks w)) - clock w (ticks w)) 0) as [Z0|_].
    { exfalso. apply (Rclock (ticks w)). lia. }
    destruct (Terminal.words l) as [|x ws] eqn:Ews; [congruence|].
    apply Step; [exact R | simpl; rewrite Ews; discriminate | reflexivity].
  - rewrite (iteration_wrong _ _ doc input_word rest) by assumption.
    apply Step; [exact R | exact Hne | reflexivity].
Qed.

Lemma terminal_typing_practice_fst (fuel : nat) (ws : list str) (w : World) :
  fst (Terminal.terminal_typing_practice fuel ws w)
  = fst (Terminal.body fuel (Terminal.entry ws, w)).
Proof.
  unfold Terminal.terminal_typing_practice.
  destruct (Terminal.body fuel (Terminal.entry ws, w)). reflexivity.
Qed.

(** X10.  [terminal_typing_practice] never returns: once the loop has been
    given more turns than there are lines to read it has ended by an
    exception.  That exception is [SystemExit] only if the exit command
    was among the lines.  In a world where every request is answered and
    the clock moves, and with a word list that is not empty, it is
    [SystemExit] when the exit command is among the lines and [EOFError]
    when it is not. *)
Theorem X10_terminal_session_ends (fuel : nat) (ws : list str) (w : World) :
  ((List.length (stdin w) < fuel)%nat ->
   exists e, fst (Terminal.terminal_typing_practice fuel ws w) = Raise e) /\
  (fst (Terminal.terminal_typing_practice fuel ws w) = Raise SystemExit ->
   In finish_practice (stdin w)) /\
  (reliable w -> ws <> [] -> (List.length (stdin w) < fuel)%nat ->
   (In finish_practice (stdin w) ->
    fst (Terminal.terminal_typing_practice fuel ws w) = Raise SystemExit) /\
   (~ In finish_practice (stdin w) ->
    fst (Terminal.terminal_typing_practice fuel ws w) = Raise EOFError)).
Proof.
  rewrite terminal_typing_practice_fst, body_run.
  destruct ws as [|x ws'].
  - split; [|split].
    + intros _. now exists ValueError.
    + discriminate.
    + intros _ H. congruence.
  - split; [|split].
    + intros Hlen. now apply (loop_ends fuel _ (drawn w)).
    + intros H. now apply loop_exit_only_on_command in H.
    + intros R _ Hlen.
      apply (loop_reliable fuel _ (drawn w)); [exact R | discriminate | exact Hlen].
Qed.

(** X10 on a session of one right answer, one wrong answer and the exit
    command, and on the same session without the exit command. *)
Lemma X10_terminal_session_ends_witness :
  fst (Terminal.terminal_typing_practice 4 [py "hello" ++ [LF]]
         (example_world [py "hello"; py "hullo"; py "finish practice"]))
  = Raise SystemExit /\
  fst (Terminal.terminal_typing_practice 4 [py "hello" ++ [LF]]
         (example_world [py "hello"; py "hullo"]))
  = Raise EOFError.
Proof.
  assert (R : forall lines, reliable (example_world lines)).
  { intros lines. split.
    - intros n url H. discriminate.
    - intros n. simpl. lia. }
  split.
  - destruct (X10_terminal_session_ends 4 [py "hello" ++ [LF]]
                (example_world [py "hello"; py "hullo"; py "finish practice"]))
      as (_ & _ & H).
    destruct H as [H _]; [apply R | discriminate | simpl; lia |].
    apply H. right. right. left. reflexivity.
  - destruct (X10_terminal_session_ends 4 [py "hello" ++ [LF]]
                (example_world [py "hello"; py "hullo"]))
      as (_ & _ & H).
    destruct H as [_ H]; [apply R | discriminate | simpl; lia |].
    apply H. intros [F|[F|[]]]; vm_compute in F; discriminate.
Defined.

(** ** The program from its first line *)

Lemma main_run (fuel : nat) (typed : list str) (w : World) :
  main fuel typed w =
  match files w (py "Oxford 5000.txt") with
  | None => (Raise IOError, w)
  | Some raw =>
      match utf8_decode raw with
      | None => (Raise UnicodeDecodeError, w)
      | Some content =>
          let ls := readlines (universal_newlines content) in
          match stdin w with
          | [] =>
              (Raise EOFError,
               with_stdout
                 (stdout w ++ [{| line_text := Lit (py "Open GUI mode? (y/n): ");
                                  line_color := None |}]) w)
          | answer :: rest =>
              if str_eqb answer (py "y") then
                match Gui.init ls (asked rest w) with
                | (Ok window, w') => run_app window typed w'
                | (Raise e, w') => (Raise e, w')
                end
              else Terminal.terminal_typing_practice fuel ls (asked rest w)
          end
      end
  end.
Proof.
  unfold main, bind at 1. unfold read_file.
  destruct (files w (py "Oxford 5000.txt")) as [raw|]; [|reflexivity].
  destruct (utf8_decode raw) as [content|]; [|reflexivity].
  cbv zeta. unfold bind at 1. unfold input_prompt, bind at 1.
  unfold print, modify, input. simpl.
  destruct (stdin w) as [|answer rest]; [reflexivity|].
  unfold asked. destruct (str_eqb answer (py "y")); [|reflexivity].
  unfold bind. destruct (Gui.init _ _) as [[window|e] w']; reflexivity.
Qed.

(** The program once the word list has been read as the text
    [content]. *)
Lemma main_run_text (fuel : nat) (typed : list str) (w : World) (content : str) :
  file_text w (py "Oxford 5000.txt") = Some content ->
  main fuel typed w =
  let ls := readlines (universal_newlines content) in
  match stdin w with
  | [] =>
      (Raise EOFError,
       with_stdout
         (stdout w ++ [{| line_text := Lit (py "Open GUI mode? (y/n): ");
                          line_color := None |}]) w)
  | answer :: rest =>
      if str_eqb answer (py "y") then
        match Gui.init ls (asked rest w) with
        | (Ok window, w') => run_app window typed w'
        | (Raise e, w') => (Raise e, w')
        end
      else Terminal.terminal_typing_practice fuel ls (asked rest w)
  end.
Proof.
  intros F. rewrite main_run. unfold file_text in F.
  destruct (files w (py "Oxford 5000.txt")) as [raw|]; [|discriminate].
  rewrite F. reflexivity.
Qed.

Lemma universal_newlines_nil_inv (s : str) : universal_newlines s = [] -> s = [].
Proof.
  destruct s as [|c r]; [reflexivity|]. simpl.
  destruct (c =? CR)%N; [|discriminate].
  destruct r as [|d r']; [discriminate|].
  destruct (d =? LF)%N; discriminate.
Qed.

(** X11.  The program fails at once, before it asks or prints anything, when
    the word list cannot be opened, with [IOError], and when it opens
    but does not decode, with [UnicodeDecodeError].  When the input ends
    at its question it fails with [EOFError], the question printed.  On
    an empty file it asks its question, takes the answer and then fails
    on the first draw with [ValueError], in either mode, with no request
    made. *)
Theorem X11_startup_failures (fuel : nat) (typed : list str) (w : World) :
  (files w (py "Oxford 5000.txt") = None ->
   main fuel typed w = (Raise IOError, w)) /\
  (forall raw,
      files w (py "Oxford 5000.txt") = Some raw ->
      utf8_decode raw = None ->
      main fuel typed w = (Raise UnicodeDecodeError, w)) /\
  (forall content,
      file_text w (py "Oxford 5000.txt") = Some content ->
      stdin w = [] ->
      fst (main fuel typed w) = Raise EOFError /\
      stdout (snd (main fuel typed w))
      = stdout w ++ [{| line_text := Lit (py "Open GUI mode? (y/n): ");
                        line_color := None |}]) /\
  (forall answer rest,
      file_text w (py "Oxford 5000.txt") = Some (py "") ->
      stdin w = answer :: rest ->
      main fuel typed w = (Raise ValueError, asked rest w)).
Proof.
  refine (conj _ (conj _ (conj _ _))).
  - rewrite main_run. intros ->. reflexivity.
  - rewrite main_run. intros raw -> ->. reflexivity.
  - intros content F I. rewrite (main_run_text _ _ _ _ F), I.
    split; reflexivity.
  - intros answer rest F I. rewrite (main_run_text _ _ _ _ F), I. cbv zeta.
    change (readlines (universal_newlines (py ""))) with (@nil str).
    destruct (str_eqb answer (py "y")).
    + rewrite init_run. reflexivity.
    + unfold Terminal.terminal_typing_practice. rewrite body_run. reflexivity.
Qed.

(** X11 with no file, with one that does not decode, and with an empty
    one. *)
Lemma X11_startup_failures_witness :
  fst (main 3 [] (example_world [py "n"])) = Raise IOError /\
  stdout (snd (main 3 [] garbled_disk)) = [] /\
  fst (main 3 [] garbled_disk) = Raise UnicodeDecodeError /\
  fst (main 3 [] (example_disk (py ""))) = Raise EOFError /\
  fst (main 3 [] (with_stdin [py "y"] (example_disk (py "")))) = Raise ValueError.
Proof.
  refine (conj _ (conj _ (conj _ (conj _ _)))).
  - destruct (X11_startup_failures 3 [] (example_world [py "n"])) as (H & _).
    rewrite (H eq_refl). reflexivity.
  - destruct (X11_startup_failures 3 [] garbled_disk) as (_ & H & _).
    rewrite (H _ eq_refl eq_refl). reflexivity.
  - destruct (X11_startup_failures 3 [] garbled_disk) as (_ & H & _).
    rewrite (H _ eq_refl eq_refl). reflexivity.
  - destruct (X11_startup_failures 3 [] (example_disk (py ""))) as (_ & _ & H & _).
    now destruct (H (py "") eq_refl eq_refl).
  - destruct (X11_startup_failures 3 []
                (with_stdin [py "y"] (example_disk (py "")))) as (_ & _ & _ & H).
    rewrite (H (py "y") [] eq_refl eq_refl). reflexivity.
Defined.

(** X12.  Every answer to the question other than the exact line ["y"] runs
    the terminal session, on the lines of the file.  With a file that is
    not empty, in a world where every request is answered and the clock
    moves, the program then ends by [SystemExit] when the exit command is
    among the lines typed after the answer, and by [EOFError] when the
    input runs out without it. *)
Theorem X12_terminal_mode_from_main
    (fuel : nat) (typed : list str) (w : World)
    (content answer : str) (lines : list str) :
  file_text w (py "Oxford 5000.txt") = Some content ->
  stdin w = answer :: lines ->
  answer <> py "y" ->
  main fuel typed w
  = Terminal.terminal_typing_practice fuel
      (readlines (universal_newlines content)) (asked lines w) /\
  (content <> [] -> reliable w -> (List.length lines < fuel)%nat ->
   (In finish_practice lines -> fst (main fuel typed w) = Raise SystemExit) /\
   (~ In finish_practice lines -> fst (main fuel typed w) = Raise EOFError)).
Proof.
  intros F I N. rewrite (main_run_text _ _ _ _ F), I. cbv zeta.
  rewrite (str_eqb_neq _ _ N). split; [reflexivity|].
  intros Hne R Hlen.
  rewrite terminal_typing_practice_fst, body_run.
  destruct (readlines (universal_newlines content)) as [|x ws] eqn:E.
  { apply readlines_nil_inv, universal_newlines_nil_inv in E. congruence. }
  apply (loop_reliable fuel _ (drawn (asked lines w)));
    [exact R | discriminate | exact Hlen].
Qed.

(** X12 on a file of two words, with the answer ["Y"]. *)
Lemma X12_terminal_mode_from_main_witness :
  let w := with_stdin [py "Y"; py "hello"; py "finish practice"]
             (example_disk (py "hello" ++ [LF] ++ py "world" ++ [LF])) in
  fst (main 3 [] w) = Raise SystemExit.
Proof.
  cbv zeta.
  destruct (X12_terminal_mode_from_main 3 []
              (with_stdin [py "Y"; py "hello"; py "finish practice"]
                 (example_disk (py "hello" ++ [LF] ++ py "world" ++ [LF])))
              (py "hello" ++ [LF] ++ py "world" ++ [LF]) (py "Y")
              [py "hello"; py "finish practice"] eq_refl eq_refl)
    as (_ & H).
  - intros E; vm_compute in E; discriminate.
  - destruct H as [H _].
    + discriminate.
    + split; [intros n url E; discriminate | intros n; simpl; lia].
    + simpl. lia.
    + apply H. right. left. reflexivity.
Defined.

(** ** How the window session ends *)

Lemma press_return_reliable (ws : list str) (t : str)
    (o : Gui.MyWindow) (w : World) :
  window_ok ws o -> ~ In finish_practice (word_list ws) ->
  timed o w -> reliable w ->
  let r := Gui.press_return t (o, w) in
  fst r = Ok tt /\
  window_ok ws (fst (snd r)) /\
  timed (fst (snd r)) (snd (snd r)) /\
  reliable (snd (snd r)) /\
  (strip t = finish_practice -> Gui.closed (fst (snd r)) = true) /\
  (strip t <> finish_practice -> Gui.closed (fst (snd r)) = Gui.closed o).
Proof.
  intros Hok Hno [Hpos Hstart] R. cbv zeta.
  pose proof (press_return_ok ws t o w Hok) as Hok'.
  pose proof R as [Rweb Rclock].
  destruct Hok as (Hws & Hin & _).
  assert (Hcur : Gui.cur_word o <> finish_practice) by (intros E; now rewrite E in Hin).
  destruct (str_eqb_spec (strip t) (Gui.cur_word o)) as [E|N1].
  - revert Hok'. rewrite press_return_correct by assumption. cbv zeta.
    destruct (Z.eqb_spec (clock w (ticks w) - Gui.start_time o) 0) as [Z0|_].
    { exfalso. apply (Rclock (Nat.pred (ticks w))).
      replace (S (Nat.pred (ticks w))) with (ticks w) by lia. lia. }
    rewrite fetch_word_run. simpl.
    destruct (Gui.words o) as [|x rest] eqn:Ews.
    { exfalso. rewrite <- Hws in Hin. destruct Hin. }
    cbv zeta.
    destruct (web w (requests w) (translation_url (pick (x :: rest) (tick w))))
      as [doc|] eqn:Hweb; [|now apply Rweb in Hweb].
    simpl. intros Hok'.
    split; [reflexivity|]. split; [exact Hok'|].
    split; [split; [simpl; lia | reflexivity]|].
    split; [exact R|]. split; [congruence | reflexivity].
  - destruct (str_eqb_spec (strip t) finish_practice) as [E|N2].
    + revert Hok'. rewrite press_return_finish by assumption. simpl.
      intros Hok'. split; [reflexivity|]. split; [exact Hok'|].
      split; [split; [exact Hpos | exact Hstart]|].
      split; [exact R|]. split; [reflexivity | congruence].
    + revert Hok'. rewrite press_return_wrong by assumption. simpl.
      intros Hok'. split; [reflexivity|]. split; [exact Hok'|].
      split; [split; [simpl; lia | reflexivity]|].
      split; [exact R|]. split; [congruence | reflexivity].
Qed.

Lemma session_reliable (ws typed : list str) :
  ~ In finish_practice (word_list ws) ->
  forall o w,
    window_ok ws o -> timed o w -> reliable w -> Gui.closed o = false ->
    let r := Gui.session typed (o, w) in
    fst r = Ok tt /\
    (exit_typed typed -> Gui.closed (fst (snd r)) = true) /\
    (~ exit_typed typed -> Gui.closed (fst (snd r)) = false).
Proof.
  intros Hno. induction typed as [|t rest IH]; intros o w Hok Ht R Hopen; cbv zeta.
  - simpl. split; [reflexivity|]. split; [|auto].
    intros H. inversion H.
  - rewrite session_cons, Hopen.
    destruct (press_return_reliable ws t o w Hok Hno Ht R)
      as (Hr & Hok' & Ht' & R' & Hc & Hk).
    destruct (Gui.press_return t (o, w)) as [[[]|e] [o' w']];
      simpl in *; [|discriminate].
    destruct (str_eqb_spec (strip t) finish_practice) as [E|N].
    + rewrite (session_closed rest o' w' (Hc E)). simpl.
      split; [reflexivity|]. split; [auto|].
      intros H. exfalso. apply H. now left.
    + destruct (IH o' w' Hok' Ht' R') as (A & B & C).
      { rewrite (Hk N). exact Hopen. }
      split; [exact A|]. split.
      * intros H. apply B. inversion H; subst; [contradiction | assumption].
      * intros H. apply C. intros H'. apply H. now right.
Qed.

(** X13.  In a world where every request is answered and the clock moves, and
    with a word list that is not empty nor holds the exit command as a
    word, choosing the window with the answer ["y"] never fails: the
    window is built, every line typed is handled without an exception,
    and the program exits exactly when one of the lines typed is the exit
    command up to the whitespace around it; otherwise the window is
    still open after the last line. *)
Theorem X13_window_mode_from_main
    (fuel : nat) (typed : list str) (w : World)
    (content : str) (rest : list str) :
  file_text w (py "Oxford 5000.txt") = Some content ->
  stdin w = py "y" :: rest ->
  content <> [] ->
  ~ In finish_practice (word_list (readlines (universal_newlines content))) ->
  reliable w ->
  (exit_typed typed -> fst (main fuel typed w) = Raise SystemExit) /\
  (~ exit_typed typed -> fst (main fuel typed w) = Ok tt).
Proof.
  intros F I Hne Hno R. rewrite (main_run_text _ _ _ _ F), I. cbv zeta.
  rewrite str_eqb_refl.
  pose proof (init_ok (readlines (universal_newlines content)) (asked rest w))
    as Hinit.
  revert Hinit. rewrite init_run.
  destruct (readlines (universal_newlines content)) as [|x ws] eqn:E.
  { apply readlines_nil_inv, universal_newlines_nil_inv in E. congruence. }
  cbv zeta. pose proof R as [Rweb _].
  destruct (web (asked rest w) (requests (asked rest w))
              (translation_url (pick (x :: ws) (asked rest w))))
    as [doc|] eqn:Hweb; [|now apply Rweb in Hweb].
  intros Hinit. specialize (Hinit _ _ eq_refl).
  unfold run_app.
  match goal with
  | |- context [Gui.session typed (?o0, ?w0)] =>
      destruct (session_reliable (x :: ws) typed Hno o0 w0) as (A & B & C);
        [ exact Hinit
        | split; [simpl; lia | reflexivity]
        | exact R
        | reflexivity
        | destruct (Gui.session typed (o0, w0)) as [[[]|e] [o' w']];
            simpl in *; [|discriminate] ]
  end.
  split.
  - intros H. rewrite (B H). reflexivity.
  - intros H. rewrite (C H). reflexivity.
Qed.

(** X13 on a file of two words: a right answer, a wrong one, and the
    exit command typed with a blank after it. *)
Lemma X13_window_mode_from_main_witness :
  let w := with_stdin [py "y"]
             (example_disk (py "hello" ++ [LF] ++ py "world" ++ [LF])) in
  fst (main 0 [py "hello"; py "hullo"; py "finish practice "] w)
  = Raise SystemExit /\
  fst (main 0 [py "hello"; py "hullo"] w) = Ok tt.
Proof.
  cbv zeta.
  assert (H : forall typed,
             (exit_typed typed ->
              fst (main 0 typed
                     (with_stdin [py "y"]
                        (example_disk (py "hello" ++ [LF] ++ py "world" ++ [LF]))))
              = Raise SystemExit) /\
             (~ exit_typed typed ->
              fst (main 0 typed
                     (with_stdin [py "y"]
                        (example_disk (py "hello" ++ [LF] ++ py "world" ++ [LF]))))
              = Ok tt)).
  { intros typed.
    apply (X13_window_mode_from_main 0 typed _
             (py "hello" ++ [LF] ++ py "world" ++ [LF]) []).
    - reflexivity.
    - reflexivity.
    - discriminate.
    - intros [E|[E|[]]]; vm_compute in E; discriminate.
    - split; [intros n url E; discriminate | intros n; simpl; lia]. }
  split.
  - apply H. right. right. left. reflexivity.
  - apply H. intros E. inversion E as [? ? E1|? ? E'];
      [vm_compute in E1; discriminate|].
    inversion E' as [? ? E2|? ? E3]; [vm_compute in E2; discriminate|].
    inversion E3.
Defined.

(** ** What the speed is measured over *)

(** X14.  In the window the start time is at every moment the latest reading
    of the clock: the constructor leaves it so, and so does every call of
    [enter_text] that returns.  The speed shown for a correct answer is
    therefore the length of the word answered over the interval between
    two successive readings, and so it is in the terminal, where the
    line printed is the one for the reading taken when the word was shown
    and the next one. *)
Theorem X14_speed_interval :
  (forall ws w w' o, Gui.init ws w = (Ok o, w') -> timed o w') /\
  (forall t o w,
      timed o w ->
      fst (Gui.press_return t (o, w)) = Ok tt ->
      timed (fst (snd (Gui.press_return t (o, w))))
            (snd (snd (Gui.press_return t (o, w))))) /\
  (forall t o w,
      timed o w ->
      strip t = Gui.cur_word o ->
      fst (Gui.press_return t (o, w)) = Ok tt ->
      Gui.result_text (fst (snd (Gui.press_return t (o, w))))
      = Speed (List.length (Gui.cur_word o))
          (clock w (ticks w)) (clock w (Nat.pred (ticks w)))) /\
  (forall l w doc rest,
      web w (requests w) (translation_url (Terminal.rand_word l)) = Some doc ->
      stdin w = Terminal.rand_word l :: rest ->
      Terminal.rand_word l <> finish_practice ->
      fst (Terminal.iteration (l, w)) = Ok tt ->
      stdout (snd (snd (Terminal.iteration (l, w))))
      = stdout w ++
        [shown (Terminal.rand_word l) doc;
         {| line_text := Speed (List.length (Terminal.rand_word l))
                           (clock w (S (ticks w))) (clock w (ticks w));
            line_color := Some (py "green") |}]).
Proof.
  refine (conj _ (conj _ (conj _ _))).
  - intros ws w w' o. rewrite init_run.
    destruct ws as [|x ws]; [discriminate|].
    cbv zeta. destruct (web _ _ _); [|discriminate].
    intros [= <- <-]. split; [simpl; lia | reflexivity].
  - intros t o w [Hpos Hstart].
    destruct (str_eqb_spec (strip t) (Gui.cur_word o)) as [E|N1].
    + rewrite press_return_correct by assumption. cbv zeta.
      destruct (_ =? 0); [discriminate|].
      rewrite fetch_word_run. simpl.
      destruct (Gui.words o); [discriminate|].
      cbv zeta. destruct (web _ _ _); [|discriminate].
      intros _. split; [simpl; lia | reflexivity].
    + destruct (str_eqb_spec (strip t) finish_practice) as [E|N2].
      * rewrite press_return_finish by assumption. intros _.
        split; [exact Hpos | exact Hstart].
      * rewrite press_return_wrong by assumption. intros _.
        split; [simpl; lia | reflexivity].
  - intros t o w [Hpos Hstart] E.
    rewrite press_return_correct by assumption. cbv zeta.
    destruct (_ =? 0); [discriminate|].
    rewrite fetch_word_run. simpl.
    destruct (Gui.words o); [discriminate|].
    cbv zeta. destruct (web _ _ _); [|discriminate].
    intros _. simpl. now rewrite Hstart.
  - intros l w doc rest D I N.
    rewrite (iteration_correct l w doc rest) by assumption. cbv zeta.
    destruct (_ =? 0); [discriminate|].
    destruct (Terminal.words l); [discriminate|].
    intros _. simpl. rewrite <- app_assoc. reflexivity.
Qed.

(** X14 on a window just built, whose word is then answered. *)
Lemma X14_speed_interval_witness :
  let ws := [py "hello" ++ [LF]] in
  let w' := snd (Gui.init ws (example_world [])) in
  Gui.result_text (fst (snd (Gui.press_return (py "hello")
                               (opened ws (example_world []), w'))))
  = Speed 5 105 100.
Proof.
  cbv zeta. destruct X14_speed_interval as (I & _ & S & _).
  apply (S (py "hello") (opened [py "hello" ++ [LF]] (example_world []))
           (snd (Gui.init [py "hello" ++ [LF]] (example_world [])))).
  - apply (I [py "hello" ++ [LF]] (example_world [])). reflexivity.
  - reflexivity.
  - reflexivity.
Defined.
